(** * Differential-privacy mechanisms of [shfl.differential_privacy.dp_mechanism]

    A shallow embedding of the five mechanisms of
    [src/shfl/differential_privacy/dp_mechanism.py] and the properties the
    specification states about them.

    Conventions of the embedding.
    - A Python float is the real number it denotes ([R]); [inf] and [nan]
      are not values of the model, and a computation that would produce
      them ends as [Unrepresented].  Where the outcome of a call depends on
      how a float operation rounds (the constructor of
      RandomizedResponseBinary, the weights of ExponentialMechanism) the
      operations are those of a [FloatArith], the floating-point arithmetic
      the code runs on; elsewhere the arithmetic is written with the
      operations of [R].  Where Python raises on a float operation (division
      of Python floats by zero, [math.log] outside its domain) the model
      raises too.
    - A numpy array is a shape together with its elements in row-major order.
    - The random generator is an effect: a mechanism is a tree of sampling
      requests ([Rand]), one node per call of a numpy/scipy sampler, carrying
      the distribution parameters and the size that the source passes.  [run]
      executes a tree against the arrays the generator hands back. *)

From Stdlib Require Import String Reals Lra Lia Bool Arith List.
Import ListNotations.

Open Scope R_scope.

(** ** Exceptions and fallible values *)

(** [Unrepresented] is no exception of Python: it ends a computation whose
    floating-point values leave the finite numbers ([inf] or [nan] arise),
    which this embedding does not follow any further. *)
Inductive exn : Type :=
| ValueError
| TypeError
| KeyError
| ZeroDivisionError
| Unrepresented.

Inductive result (A : Type) : Type :=
| Ok (a : A)
| Err (e : exn).
Arguments Ok {A} a.
Arguments Err {A} e.

Definition rbind {A B : Type} (r : result A) (f : A -> result B) : result B :=
  match r with
  | Ok a => f a
  | Err e => Err e
  end.

(** ** numpy arrays *)

Record ndarray : Type := mk_nd { shape : list nat; elems : list R }.

Module Np.

Definition shape_eqb (s t : list nat) : bool :=
  if list_eq_dec Nat.eq_dec s t then true else false.

(** Number of elements of an array of a given shape. *)
Definition size_of (s : list nat) : nat := fold_right Nat.mul 1%nat s.

Definition well_formed (a : ndarray) : Prop :=
  length (elems a) = size_of (shape a).

(** [np.asarray] of a Python or numpy scalar: a 0-d array. *)
Definition of_scalar (x : R) : ndarray := mk_nd [] [x].

Definition is_0d (a : ndarray) : bool :=
  match shape a with
  | [] => true
  | _ :: _ => false
  end.

Definition map (f : R -> R) (a : ndarray) : ndarray :=
  mk_nd (shape a) (List.map f (elems a)).

Definition zip_with (f : R -> R -> R) (xs ys : list R) : list R :=
  List.map (fun p => f (fst p) (snd p)) (combine xs ys).

(** A binary ufunc.  Operands of equal shape are combined elementwise and a
    0-d operand is broadcast against the other one.  These are the only
    combinations the mechanisms produce once the generator returns arrays of
    the requested size; numpy's broadcasting between two different
    non-scalar shapes is not represented and is reported as the
    [ValueError] numpy raises for incompatible shapes. *)
Definition ufunc2 (f : R -> R -> R) (a b : ndarray) : result ndarray :=
  if shape_eqb (shape a) (shape b)
  then Ok (mk_nd (shape a) (zip_with f (elems a) (elems b)))
  else match shape a, elems a, shape b, elems b with
       | [], [x], _, _ => Ok (map (fun y => f x y) b)
       | _, _, [], [y] => Ok (map (fun x => f x y) a)
       | _, _, _, _ => Err ValueError
       end.

Definition add := ufunc2 Rplus.
Definition mul := ufunc2 Rmult.

(** [a / x] and [x - a] for a Python scalar [x]. *)
Definition div_scalar (a : ndarray) (x : R) : ndarray := map (fun y => y / x) a.
Definition rsub_scalar (x : R) (a : ndarray) : ndarray := map (fun y => x - y) a.
Definition scale_by (x : R) (a : ndarray) : ndarray := map (fun y => x * y) a.

End Np.

(** ** The sampling effect *)

(** One variant per sampler the module calls. *)
Inductive dist : Type :=
| Bernoulli (p : ndarray)                 (* scipy.stats.bernoulli.rvs(p=p) *)
| Laplace (loc : R) (scale : ndarray)     (* np.random.laplace *)
| Normal (loc : R) (scale : ndarray)      (* np.random.normal *)
| Choice (a : list R) (p : ndarray).      (* np.random.choice, replace=True *)

(** A request: the distribution and the [size] of the array asked for.
    Where a call leaves [size] out, the array has the shape of the
    parameters, and that shape is recorded. *)
Definition request : Type := (dist * list nat)%type.

Inductive Rand (A : Type) : Type :=
| Ret (a : A)
| Raise (e : exn)
| Draw (d : dist) (size : list nat) (k : ndarray -> Rand A).
Arguments Ret {A} a.
Arguments Raise {A} e.
Arguments Draw {A} d size k.

Fixpoint bind {A B : Type} (t : Rand A) (f : A -> Rand B) : Rand B :=
  match t with
  | Ret a => f a
  | Raise e => Raise e
  | Draw d sz k => Draw d sz (fun x => bind (k x) f)
  end.

Definition lift {A : Type} (r : result A) : Rand A :=
  match r with
  | Ok a => Ret a
  | Err e => Raise e
  end.

Definition draw (d : dist) (sz : list nat) : Rand ndarray := Draw d sz Ret.

Declare Scope rand_scope.
Delimit Scope rand_scope with rand.
Notation "x <- c ;; k" := (bind c (fun x => k))
  (at level 61, c at next level, right associativity) : rand_scope.
Notation "c ;;; k" := (bind c (fun _ => k))
  (at level 61, right associativity) : rand_scope.

(** The end of an execution. *)
Inductive outcome (A : Type) : Type :=
| Returned (a : A)
| Raised (e : exn)
| Misfit.       (* the tape is not one the generator can produce *)
Arguments Returned {A} a.
Arguments Raised {A} e.
Arguments Misfit {A}.

(** The generator answers a request of size [sz] with a well-formed array
    of that shape. *)
Definition fits (sz : list nat) (x : ndarray) : bool :=
  Np.shape_eqb (shape x) sz && (length (elems x) =? Np.size_of sz)%nat.

(** [run t tape] executes [t], answering the i-th request with the i-th
    array of [tape]; it returns the requests issued and how [t] ended. *)
Fixpoint run {A : Type} (t : Rand A) (tape : list ndarray)
  : list request * outcome A :=
  match t with
  | Ret a => ([], Returned a)
  | Raise e => ([], Raised e)
  | Draw d sz k =>
      match tape with
      | [] => ([(d, sz)], Misfit)
      | x :: tape' =>
          if fits sz x
          then let (rq, o) := run (k x) tape' in ((d, sz) :: rq, o)
          else ([(d, sz)], Misfit)
      end
  end.

(** ** The samplers of numpy and their argument checks *)

(** Shapes are compared from the last axis: a parameter can be broadcast to
    a size when it has no more axes than the size and each of its axes has
    length 1 or the length of the matching axis of the size. *)
Fixpoint broadcast_rev (param size : list nat) : bool :=
  match param, size with
  | [], _ => true
  | _ :: _, [] => false
  | p :: param', s :: size' =>
      (Nat.eqb p 1 || Nat.eqb p s) && broadcast_rev param' size'
  end.

Definition broadcastable_to (param size : list nat) : bool :=
  broadcast_rev (rev param) (rev size).

Definition negative (x : R) : bool := if Rlt_dec x 0 then true else false.

(** [np.random.laplace(loc, scale, size)] and [np.random.normal(loc, scale,
    size)]: numpy raises a [ValueError] for a negative scale and for a
    scale that cannot be broadcast to [size], and samples otherwise. *)
Definition np_random (family : R -> ndarray -> dist) (loc : R)
  (scale : ndarray) (size : list nat) : Rand ndarray :=
  if existsb negative (elems scale) then Raise ValueError
  else if broadcastable_to (shape scale) size
       then draw (family loc scale) size
       else Raise ValueError.

Definition np_random_laplace := np_random Laplace.
Definition np_random_normal := np_random Normal.

(** ** Floating-point arithmetic

    The operations of the arithmetic the code runs on, on the finite floats
    seen as reals.  [f_sub], [f_div] and [f_log] are used where the
    operands keep the result finite; the others return [None] when the
    result is not a finite float (overflow, a division by zero, [nan]).
    [f_sum] is [ndarray.sum()] on a non-empty array and [f_choice_accepts]
    is the test of [np.random.choice] on its probabilities (none negative,
    sum equal to 1 up to numpy's tolerance). *)
Record FloatArith : Type := mk_float {
  f_sub : R -> R -> R;
  f_div : R -> R -> R;
  f_log : R -> R;
  f_mul : R -> R -> option R;
  f_quot : R -> R -> option R;
  f_exp : R -> option R;
  f_sum : list R -> option R;
  f_choice_accepts : list R -> bool
}.

(** The arithmetic without rounding and without overflow. *)
Definition exact_float : FloatArith :=
  {| f_sub := Rminus;
     f_div := Rdiv;
     f_log := ln;
     f_mul := fun x y => Some (x * y);
     f_quot := fun x y => if Req_dec_T y 0 then None else Some (x / y);
     f_exp := fun x => Some (exp x);
     f_sum := fun xs => Some (fold_right Rplus 0 xs);
     f_choice_accepts := fun ps =>
       negb (existsb negative ps)
       && (if Req_dec_T (fold_right Rplus 0 ps) 1 then true else false) |}.

Definition lift_float {A : Type} (v : option A) : Rand A :=
  match v with
  | Some a => Ret a
  | None => Raise Unrepresented
  end.

(** [mapM] in [option]. *)
Fixpoint map_option {A B : Type} (f : A -> option B) (l : list A)
  : option (list B) :=
  match l with
  | [] => Some []
  | a :: l' =>
      match f a, map_option f l' with
      | Some b, Some bs => Some (b :: bs)
      | _, _ => None
      end
  end.

(** ** Python values *)

(** The values that data, query results, sensitivities and outputs range
    over.  A mapping keeps its insertion order, which is the order in which
    a comprehension over [items()] visits it; the value of a key is an
    array (a Python float stored under a key is its 0-d array). *)
Inductive pyval : Type :=
| PyNone
| PyFloat (x : R)                           (* Python or numpy scalar *)
| PyNd (a : ndarray)                        (* numeric np.ndarray *)
| PyDict (d : list (string * ndarray))      (* dict *)
| PyList (l : list R)                       (* list: no scalar, array or dict *)
| PyObjNd (v : pyval).                      (* 0-d ndarray of dtype object *)

(** [np.asarray]. *)
Definition np_asarray (v : pyval) : pyval :=
  match v with
  | PyFloat x => PyNd (Np.of_scalar x)
  | PyNd a => PyNd a
  | PyList l => PyNd (mk_nd [length l] l)
  | PyObjNd w => PyObjNd w
  | PyNone => PyObjNd PyNone
  | PyDict d => PyObjNd (PyDict d)
  end.

(** [isinstance(v, (np.ScalarType, np.ndarray))] and [isinstance(v, dict)]. *)
Definition is_scalar_or_ndarray (v : pyval) : bool :=
  match v with
  | PyFloat _ | PyNd _ | PyObjNd _ => true
  | PyNone | PyDict _ | PyList _ => false
  end.

Definition is_dict (v : pyval) : bool :=
  match v with
  | PyDict _ => true
  | _ => false
  end.

(** The operand of numeric arithmetic; an object array of mappings or
    [None] makes the operator raise [TypeError]. *)
Definition as_numeric (v : pyval) : result ndarray :=
  match v with
  | PyFloat x => Ok (Np.of_scalar x)
  | PyNd a => Ok a
  | _ => Err TypeError
  end.

(** The [.shape] attribute of an array. *)
Definition shape_of (v : pyval) : list nat :=
  match v with
  | PyNd a => shape a
  | _ => []
  end.

(** [v / x] for a Python float [x].  A float divided by zero raises; an
    array divided by zero is filled with [inf] or [nan], which have no
    counterpart here: the constructors refuse an epsilon that is not
    positive and the properties below are stated for constructed
    mechanisms. *)
Definition py_div (v : pyval) (x : R) : result ndarray :=
  match v with
  | PyFloat y =>
      if Req_dec_T x 0 then Err ZeroDivisionError else Ok (Np.of_scalar (y / x))
  | PyNd a => Ok (Np.div_scalar a x)
  | _ => Err TypeError
  end.

(** Lookup [d[k]] in a mapping. *)
Fixpoint dict_get {V : Type} (d : list (string * V)) (k : string) : result V :=
  match d with
  | [] => Err KeyError
  | (k', v) :: rest => if String.eqb k k' then Ok v else dict_get rest k
  end.

Definition dict_keys {V : Type} (d : list (string * V)) : list string :=
  List.map fst d.

Definition has_key {V : Type} (d : list (string * V)) (k : string) : bool :=
  existsb (String.eqb k) (dict_keys d).

(** ** Shared validation helpers

    The helpers live in [shfl.private.data.DPDataAccessDefinition], the base
    class of every mechanism. *)

Module DPDataAccessDefinition.

Definition is_binary (x : R) : bool :=
  if Req_dec_T x 0 then true else if Req_dec_T x 1 then true else false.

(** Modelled from the spec: [_check_binary_data] of the base class is not
    part of the sources at hand.  "binary-data check (every entry in {0,1},
    else fails)". *)
Definition check_binary_data (data : pyval) : result unit :=
  match data with
  | PyNd a => if forallb is_binary (elems a) then Ok tt else Err ValueError
  | _ => Err ValueError
  end.

(** Modelled from the spec: [_check_epsilon_delta] of the base class is not
    part of the sources at hand.  "epsilon/delta well-formedness (epsilon>0;
    delta in [0,1))". *)
Definition check_epsilon_delta (epsilon_delta : R * R) : result unit :=
  let (epsilon, delta) := epsilon_delta in
  if Rle_dec epsilon 0 then Err ValueError
  else if Rlt_dec delta 0 then Err ValueError
  else if Rle_dec 1 delta then Err ValueError
  else Ok tt.

Definition positive (x : R) : bool := if Rlt_dec 0 x then true else false.

Definition all_positive (a : ndarray) : bool := forallb positive (elems a).

(** Modelled from the spec: [_check_sensitivity_positive] of the base class
    is not part of the sources at hand.  "sensitivity positivity (every
    entry >0)", for "a positive scalar or a structured (per-key) collection
    of positive scalars". *)
Definition check_sensitivity_positive (sensitivity : pyval) : result unit :=
  match sensitivity with
  | PyFloat x => if positive x then Ok tt else Err ValueError
  | PyNd a => if all_positive a then Ok tt else Err ValueError
  | PyDict d =>
      if forallb (fun kv => all_positive (snd kv)) d then Ok tt
      else Err ValueError
  | _ => Err ValueError
  end.

Definition same_keys {V W : Type}
  (d : list (string * V)) (e : list (string * W)) : bool :=
  forallb (has_key e) (dict_keys d) && forallb (has_key d) (dict_keys e).

(** Modelled from the spec: [_check_sensitivity_shape] of the base class is
    not part of the sources at hand.  "sensitivity/query-result shape
    compatibility (matching array shapes, or matching key sets for
    mappings)"; the sensitivity "must structurally match the shape of the
    query's result (scalar vs array vs mapping)", and a scalar sensitivity
    serves every element of an array and every key of a mapping. *)
Definition check_sensitivity_shape (sensitivity query_result : pyval)
  : result unit :=
  match query_result, sensitivity with
  | (PyFloat _ | PyNd _), PyFloat _ => Ok tt
  | (PyFloat _ | PyNd _), PyNd s =>
      if Np.is_0d s || Np.shape_eqb (shape s) (shape_of (np_asarray query_result))
      then Ok tt else Err ValueError
  | PyDict _, PyFloat _ => Ok tt
  | PyDict _, PyNd s => if Np.is_0d s then Ok tt else Err ValueError
  | PyDict q, PyDict s => if same_keys s q then Ok tt else Err ValueError
  | _, _ => Err ValueError
  end.

End DPDataAccessDefinition.

Import DPDataAccessDefinition.

(** A query is a function of the private data.
    Modelled from the spec: [IdentityFunction] of [shfl.private.query] is
    not part of the sources at hand.  "default is the identity (returns
    data unchanged)". *)
Definition Query : Type := pyval -> pyval.
Definition IdentityFunction : Query := fun data => data.

Definition default_query (query : option Query) : Query :=
  match query with
  | None => IdentityFunction
  | Some q => q
  end.

Declare Scope result_scope.
Delimit Scope result_scope with result.
Notation "x <~ c ; k" := (rbind c (fun x => k))
  (at level 61, c at next level, right associativity) : result_scope.
Notation "c ;> k" := (rbind c (fun _ => k))
  (at level 61, right associativity) : result_scope.
Open Scope result_scope.

Open Scope rand_scope.

(** The division of Python floats and [math.log], which raise outside
    their domain, in a floating-point arithmetic. *)
Definition float_div (fa : FloatArith) (x y : R) : result R :=
  if Req_dec_T y 0 then Err ZeroDivisionError else Ok (f_div fa x y).

Definition math_log (fa : FloatArith) (x : R) : result R :=
  if Rle_dec x 0 then Err ValueError else Ok (f_log fa x).

(** [max(a, b)] of Python keeps [a] unless [b] is greater. *)
Definition py_max (a b : R) : R := if Rlt_dec a b then b else a.

Definition math_sqrt (x : R) : result R :=
  if Rlt_dec x 0 then Err ValueError else Ok (sqrt x).

(** [a + b] where [a] is a query result and [b] an array of noise. *)
Definition py_add (a : pyval) (b : ndarray) : result ndarray :=
  x <~ as_numeric a; Np.add x b.

(** ** RandomizedResponseCoins *)

Module RandomizedResponseCoins.

Record t : Type := mk {
  _prob_head_first : R;
  _prob_head_second : R;
  _epsilon_delta : R * R
}.

Definition init (prob_head_first prob_head_second : R) : t :=
  {| _prob_head_first := prob_head_first;
     _prob_head_second := prob_head_second;
     _epsilon_delta := (ln 3, 0) |}.

(** The defaults [prob_head_first=0.5, prob_head_second=0.5]. *)
Definition init_default : t := init (1 / 2) (1 / 2).

Definition epsilon_delta (self : t) : R * R := _epsilon_delta self.

Definition apply (self : t) (data : pyval) : Rand pyval :=
  let data := np_asarray data in
  lift (check_binary_data data) ;;;
  first_coin_flip <-
    draw (Bernoulli (Np.of_scalar (1 - _prob_head_first self))) (shape_of data) ;;
  second_coin_flip <-
    draw (Bernoulli (Np.of_scalar (_prob_head_second self))) (shape_of data) ;;
  lift (d <~ as_numeric data;
        truthful <~ Np.mul d first_coin_flip;
        random <~ Np.mul (Np.rsub_scalar 1 first_coin_flip) second_coin_flip;
        result <~ Np.add truthful random;
        Ok (PyNd result)).

End RandomizedResponseCoins.

(** ** RandomizedResponseBinary *)

Module RandomizedResponseBinary.

Record t : Type := mk { _f0 : R; _f1 : R; _epsilon : R }.

(** The constructor.  [_check_epsilon_delta] belongs to the base class
    [shfl.private.data.DPDataAccessDefinition], which is not part of the
    sources at hand: it is the parameter [check].  The bound on epsilon is
    computed in the floating-point arithmetic [fa], since whether the
    constructor raises depends on how it rounds. *)
Definition init (fa : FloatArith) (check : R * R -> result unit)
  (f0 f1 epsilon : R) : result t :=
  check (epsilon, 0) ;>
  if Rle_dec f0 0 then Err ValueError
  else if Rle_dec 1 f0 then Err ValueError
  else if Rle_dec f1 0 then Err ValueError
  else if Rle_dec 1 f1 then Err ValueError
  else
    a <~ float_div fa f0 (f_sub fa 1 f1);
    b <~ float_div fa f1 (f_sub fa 1 f0);
    bound <~ math_log fa (py_max a b);
    if Rlt_dec epsilon bound then Err ValueError
    else Ok {| _f0 := f0; _f1 := f1; _epsilon := epsilon |}.

Definition epsilon_delta (self : t) : R * R := (_epsilon self, 0).

Definition is_zero (x : R) : bool := if Req_dec_T x 0 then true else false.

(** [a == 0], elementwise. *)
Definition eq_zero (a : ndarray) : list bool := List.map is_zero (elems a).

(** [np.empty(shape)]: an array whose contents are unspecified; zeros stand
    in for them. *)
Definition np_empty (sh : list nat) : ndarray :=
  mk_nd sh (repeat 0 (Np.size_of sh)).

(** [a[mask] = x]. *)
Definition set_where (a : ndarray) (mask : list bool) (x : R) : ndarray :=
  mk_nd (shape a)
    (List.map (fun p : R * bool => if snd p then x else fst p)
       (combine (elems a) mask)).

Definition apply (self : t) (data : pyval) : Rand pyval :=
  let data := np_asarray data in
  lift (check_binary_data data) ;;;
  d <- lift (as_numeric data) ;;
  let probabilities := np_empty (shape d) in
  let x_zero := eq_zero d in
  let probabilities := set_where probabilities x_zero (1 - _f0 self) in
  let probabilities := set_where probabilities (List.map negb x_zero) (_f1 self) in
  x_response <- draw (Bernoulli probabilities) (shape probabilities) ;;
  Ret (PyNd x_response).

End RandomizedResponseBinary.

(** ** LaplaceMechanism *)

Module LaplaceMechanism.

Record t : Type := mk {
  _sensitivity : pyval;
  _epsilon : R;
  _query : Query
}.

Definition init (sensitivity : pyval) (epsilon : R) (query : option Query)
  : result t :=
  let query := default_query query in
  check_epsilon_delta (epsilon, 0) ;>
  check_sensitivity_positive sensitivity ;>
  Ok {| _sensitivity := sensitivity; _epsilon := epsilon; _query := query |}.

Definition epsilon_delta (self : t) : R * R := (_epsilon self, 0).

(** [self._sensitivity = v]. *)
Definition set_sensitivity (self : t) (v : pyval) : t :=
  {| _sensitivity := v; _epsilon := _epsilon self; _query := _query self |}.

(** The comprehension
    [{k: v + np.random.laplace(loc=0.0, scale=..., size=v.shape) for k, v in
    query_result.items()}], where [scale_of k] is the scale expression
    evaluated for key [k]. *)
Fixpoint noisy_items (scale_of : string -> result ndarray)
  (items : list (string * ndarray)) : Rand (list (string * ndarray)) :=
  match items with
  | [] => Ret []
  | (k, v) :: rest =>
      b <- lift (scale_of k) ;;
      noise <- np_random_laplace 0 b (shape v) ;;
      out <- lift (Np.add v noise) ;;
      outs <- noisy_items scale_of rest ;;
      Ret ((k, out) :: outs)
  end.

(** [apply] returns the instance as the call leaves it together with the
    computation of the output. *)
Definition apply (self : t) (data : pyval) : t * Rand pyval :=
  let query_result := _query self data in
  if is_scalar_or_ndarray query_result then
    let self := set_sensitivity self (np_asarray (_sensitivity self)) in
    (self,
     lift (check_sensitivity_shape (_sensitivity self) query_result) ;;;
     b <- lift (py_div (_sensitivity self) (_epsilon self)) ;;
     let query_result := np_asarray (_query self data) in
     noise <- np_random_laplace 0 b (shape_of query_result) ;;
     output <- lift (py_add query_result noise) ;;
     Ret (PyNd output))
  else
    match query_result with
    | PyDict items =>
        (self,
         lift (check_sensitivity_shape (_sensitivity self) query_result) ;;;
         match _sensitivity self with
         | PyDict s =>
             let b :=
               List.map (fun kv : string * ndarray =>
                           (fst kv, Np.div_scalar (snd kv) (_epsilon self))) s in
             output <- noisy_items (dict_get b) items ;;
             Ret (PyDict output)
         | s =>
             b <- lift (py_div s (_epsilon self)) ;;
             output <- noisy_items (fun _ => Ok b) items ;;
             Ret (PyDict output)
         end)
    | _ => (self, Ret PyNone)
    end.

End LaplaceMechanism.

(** ** GaussianMechanism *)

Module GaussianMechanism.

Record t : Type := mk {
  _sensitivity : pyval;
  _epsilon_delta : R * R;
  _query : Query
}.

Definition init (sensitivity : pyval) (epsilon_delta : R * R)
  (query : option Query) : result t :=
  let query := default_query query in
  check_epsilon_delta epsilon_delta ;>
  if Rle_dec 1 (fst epsilon_delta) then Err ValueError
  else
    check_sensitivity_positive sensitivity ;>
    Ok {| _sensitivity := sensitivity;
          _epsilon_delta := epsilon_delta;
          _query := query |}.

Definition epsilon_delta (self : t) : R * R := _epsilon_delta self.

(** [sqrt(2 * np.log(1.25 / delta))].  For [delta = 0] the quotient raises
    ZeroDivisionError when delta is a Python float and is [inf] when it is
    a numpy scalar, and for a negative delta numpy's logarithm is [nan]:
    the reals of the pair neither tell the two kinds of zero apart nor hold
    [inf] and [nan], so these cases end as [Unrepresented].  For
    [delta > 1.25] the argument of [math.sqrt] is negative and it raises. *)
Definition std_factor (delta : R) : result R :=
  if Rle_dec delta 0 then Err Unrepresented
  else math_sqrt (2 * ln (125 / 100 / delta)).

Definition apply (self : t) (data : pyval) : Rand pyval :=
  let query_result := np_asarray (_query self data) in
  let sensitivity := np_asarray (_sensitivity self) in
  lift (check_sensitivity_shape sensitivity query_result) ;;;
  std <- lift (c <~ std_factor (snd (_epsilon_delta self));
               s <~ as_numeric sensitivity;
               Ok (Np.div_scalar (Np.scale_by c s) (fst (_epsilon_delta self)))) ;;
  noise <- np_random_normal 0 std (shape_of query_result) ;;
  output <- lift (py_add query_result noise) ;;
  Ret (PyNd output).

End GaussianMechanism.

(** ** ExponentialMechanism *)

Module ExponentialMechanism.

Record t : Type := mk {
  _u : pyval -> list R -> ndarray;
  _r : list R;
  _delta_u : R;
  _epsilon : R;
  _size : nat
}.

Definition init (u : pyval -> list R -> ndarray) (r : list R)
  (delta_u epsilon : R) (size : nat) : result t :=
  check_epsilon_delta (epsilon, 0) ;>
  Ok {| _u := u; _r := r; _delta_u := delta_u;
        _epsilon := epsilon; _size := size |}.

Definition epsilon_delta (self : t) : R * R := (_epsilon self, 0).

(** The weight [exp(epsilon * u / (2 * delta_u))] of one candidate, step by
    step as the expression is evaluated. *)
Definition weight (fa : FloatArith) (epsilon delta_u u : R) : option R :=
  match f_mul fa epsilon u, f_mul fa 2 delta_u with
  | Some x, Some d =>
      match f_quot fa x d with
      | Some y => f_exp fa y
      | None => None
      end
  | _, _ => None
  end.

(** [p.sum()]; the sum of an empty array is 0. *)
Definition np_sum (fa : FloatArith) (ws : list R) : option R :=
  match ws with
  | [] => Some 0
  | _ :: _ => f_sum fa ws
  end.

(** [p /= p.sum()]. *)
Definition normalize (fa : FloatArith) (ws : list R) : option (list R) :=
  match np_sum fa ws with
  | Some total => map_option (fun w => f_quot fa w total) ws
  | None => None
  end.

(** [np.random.choice(a=r, size=size, replace=True, p=p)]: numpy raises a
    [ValueError] when [a] is empty, when [p] is not a vector with as many
    entries as [a], and when [p] fails its test on probabilities. *)
Definition np_random_choice (fa : FloatArith) (a : list R) (size : nat)
  (p : ndarray) : Rand ndarray :=
  match a, shape p with
  | _ :: _, [n] =>
      if negb (Nat.eqb n (length a)) then Raise ValueError
      else if f_choice_accepts fa (elems p) then draw (Choice a p) [size]
      else Raise ValueError
  | _, _ => Raise ValueError
  end.

(** The constructor does not look at [r] or delta_u. *)
Definition apply (fa : FloatArith) (self : t) (data : pyval) : Rand pyval :=
  let r_range := _r self in
  let u_points := _u self data r_range in
  weights <-
    lift_float (map_option (weight fa (_epsilon self) (_delta_u self))
                  (elems u_points)) ;;
  p <- lift_float (normalize fa weights) ;;
  sample <- np_random_choice fa r_range (_size self) (mk_nd (shape u_points) p) ;;
  Ret (PyNd sample).

End ExponentialMechanism.

(** ** DeepLearningModel

    [src/shfl/model/deep_learning_model.py] wraps a compiled Keras model.
    Keras is foreign code: the operations of the wrapped model are the
    parameters of the section, and the wrapper is modelled on top of them. *)

(** The exceptions of the wrapper.  [SubscriptError] stands for the error
    Python raises when [[0]] is applied to a value without a first element
    (a [TypeError] or an [IndexError], depending on the value). *)
Inductive model_exn : Type :=
| AssertionError
| SubscriptError
| NumpyError (e : exn).

(** What [Model.evaluate] returns: "scalar test loss (if the model has a
    single output and no metrics) or list of scalars". *)
Inductive metrics : Type :=
| Loss (x : R)
| Metrics (l : list R).

Module DeepLearningModel.

(** A Keras shape is a tuple whose entries are integers or [None]. *)
Definition keras_shape : Type := list (option nat).

(** [t1 != t2] for a tuple of integers and a Keras shape, negated: tuples
    are equal when they have the same length and equal entries, and an
    integer is never equal to [None]. *)
Fixpoint tuple_eqb (ints : list nat) (dims : keras_shape) : bool :=
  match ints, dims with
  | [], [] => true
  | n :: ints', Some m :: dims' => Nat.eqb n m && tuple_eqb ints' dims'
  | _, _ => false
  end.

(** The index of the first largest entry of a row. *)
Fixpoint argmax_from (best_i : nat) (best : R) (i : nat) (row : list R) : nat :=
  match row with
  | [] => best_i
  | x :: row' =>
      if Rlt_dec best x then argmax_from i x (S i) row'
      else argmax_from best_i best (S i) row'
  end.

Definition argmax (row : list R) : nat :=
  match row with
  | [] => 0%nat
  | x :: row' => argmax_from 0 x 1 row'
  end.

(** The rows of length [c] of a row-major array. *)
Fixpoint chunks (fuel c : nat) (l : list R) : list (list R) :=
  match fuel with
  | O => []
  | S fuel' =>
      match l with
      | [] => []
      | _ :: _ => firstn c l :: chunks fuel' c (skipn c l)
      end
  end.

(** The length of the last axis; numpy handles a 0-d array as an array of
    one element. *)
Definition last_axis (sh : list nat) : nat :=
  match sh with
  | [] => 1%nat
  | _ :: _ => last sh 0%nat
  end.

(** [a.argmax(axis=-1)]: numpy refuses an empty axis with a [ValueError]. *)
Definition argmax_last (a : ndarray) : model_exn + ndarray :=
  let c := last_axis (shape a) in
  if Nat.eqb c 0 then inl (NumpyError ValueError)
  else inr (mk_nd (removelast (shape a))
              (List.map (fun row => INR (argmax row))
                 (chunks (length (elems a)) c (elems a)))).

Section Keras.

Variable keras : Type.
(** [layers[0].get_input_shape_at(0)] and [layers[-1].get_output_shape_at(0)]. *)
Variable input_shape : keras -> keras_shape.
Variable output_shape : keras -> keras_shape.
(** [fit(x, y, batch_size, epochs, ...)], which updates the model. *)
Variable fit : keras -> ndarray -> ndarray -> option nat -> nat -> keras.
(** [predict(data, batch_size)]. *)
Variable keras_predict : keras -> ndarray -> option nat -> ndarray.
(** [evaluate(data, labels, verbose=0)]. *)
Variable keras_evaluate : keras -> ndarray -> ndarray -> metrics.
Variable get_weights : keras -> list ndarray.
Variable set_weights : keras -> list ndarray -> keras.

Record t : Type := mk {
  _model : keras;
  _data_shape : keras_shape;
  _labels_shape : keras_shape;
  _batch_size : option nat;
  _epochs : nat
}.

Definition init (model : keras) (batch_size : option nat) (epochs : nat) : t :=
  {| _model := model;
     _data_shape := tl (input_shape model);
     _labels_shape := tl (output_shape model);
     _batch_size := batch_size;
     _epochs := epochs |}.

Definition _check_data (self : t) (data : ndarray) : model_exn + unit :=
  if tuple_eqb (tl (shape data)) (_data_shape self) then inr tt
  else inl AssertionError.

Definition _check_labels (self : t) (labels : ndarray) : model_exn + unit :=
  if tuple_eqb (tl (shape labels)) (_labels_shape self) then inr tt
  else inl AssertionError.

Definition set_model (self : t) (model : keras) : t :=
  {| _model := model;
     _data_shape := _data_shape self;
     _labels_shape := _labels_shape self;
     _batch_size := _batch_size self;
     _epochs := _epochs self |}.

(** [train] returns nothing; the result is the instance after the call. *)
Definition train (self : t) (data labels : ndarray) : model_exn + t :=
  match _check_data self data with
  | inl e => inl e
  | inr _ =>
      match _check_labels self labels with
      | inl e => inl e
      | inr _ =>
          inr (set_model self
                 (fit (_model self) data labels (_batch_size self) (_epochs self)))
      end
  end.

Definition predict (self : t) (data : ndarray) : model_exn + ndarray :=
  match _check_data self data with
  | inl e => inl e
  | inr _ => argmax_last (keras_predict (_model self) data (_batch_size self))
  end.

Definition evaluate (self : t) (data labels : ndarray) : model_exn + metrics :=
  match _check_data self data with
  | inl e => inl e
  | inr _ =>
      match _check_labels self labels with
      | inl e => inl e
      | inr _ => inr (keras_evaluate (_model self) data labels)
      end
  end.

(** [value[0]]. *)
Definition first_item (value : metrics) : model_exn + R :=
  match value with
  | Metrics (x :: _) => inr x
  | Metrics [] => inl SubscriptError
  | Loss _ => inl SubscriptError
  end.

Definition performance (self : t) (data labels : ndarray) : model_exn + R :=
  match _check_data self data with
  | inl e => inl e
  | inr _ =>
      match _check_labels self labels with
      | inl e => inl e
      | inr _ => first_item (keras_evaluate (_model self) data labels)
      end
  end.

Definition get_model_params (self : t) : list ndarray :=
  get_weights (_model self).

Definition set_model_params (self : t) (params : list ndarray) : t :=
  set_model self (set_weights (_model self) params).

End Keras.

Arguments mk {keras} _ _ _ _ _.
Arguments _model {keras} _.
Arguments _data_shape {keras} _.
Arguments _labels_shape {keras} _.
Arguments _batch_size {keras} _.
Arguments _epochs {keras} _.
Arguments init {keras} input_shape output_shape model batch_size epochs.
Arguments _check_data {keras} self data.
Arguments _check_labels {keras} self labels.
Arguments set_model {keras} self model.
Arguments train {keras} fit self data labels.
Arguments predict {keras} keras_predict self data.
Arguments evaluate {keras} keras_evaluate self data labels.
Arguments performance {keras} keras_evaluate self data labels.
Arguments get_model_params {keras} get_weights self.
Arguments set_model_params {keras} set_weights self params.

End DeepLearningModel.

(** * Closed forms stated by the specification *)

(** The bound ln(max(f0/(1-f1), f1/(1-f0))) on epsilon. *)
Definition min_epsilon (f0 f1 : R) : R :=
  ln (Rmax (f0 / (1 - f1)) (f1 / (1 - f0))).

(** The answer of the two-coin protocol for one element. *)
Definition coin_response (x first second : R) : R :=
  x * first + (1 - first) * second.

Fixpoint map3 (f : R -> R -> R -> R) (xs ys zs : list R) : list R :=
  match xs, ys, zs with
  | x :: xs', y :: ys', z :: zs' => f x y z :: map3 f xs' ys' zs'
  | _, _, _ => []
  end.

Definition coins_closed_form (data first second : ndarray) : ndarray :=
  mk_nd (shape data) (map3 coin_response (elems data) (elems first) (elems second)).

(** A query result with its noise added. *)
Definition noisy (v noise : ndarray) : ndarray :=
  mk_nd (shape v) (Np.zip_with Rplus (elems v) (elems noise)).

Fixpoint noisy_dict (items : list (string * ndarray)) (noises : list ndarray)
  : list (string * ndarray) :=
  match items, noises with
  | (k, v) :: items', n :: noises' => (k, noisy v n) :: noisy_dict items' noises'
  | _, _ => []
  end.

(** One Laplace request per key, of the shape of the key's array. *)
Definition laplace_requests (scale_of : string -> ndarray)
  (items : list (string * ndarray)) : list request :=
  List.map (fun kv : string * ndarray =>
              (Laplace 0 (scale_of (fst kv)), shape (snd kv))) items.

(** Every array of noise has the shape of the array of its key. *)
Definition all_fit (items : list (string * ndarray)) (noises : list ndarray)
  : Prop :=
  Forall2 (fun (kv : string * ndarray) n => fits (shape (snd kv)) n = true)
    items noises.

(** The scale b[k] = sensitivity[k] / epsilon of a key. *)
Definition per_key_scale (sensitivity : list (string * ndarray)) (epsilon : R)
  (k : string) : ndarray :=
  match dict_get sensitivity k with
  | Ok s => Np.div_scalar s epsilon
  | Err _ => Np.of_scalar 0
  end.

(** The standard deviation sqrt(2 ln(1.25/delta)) * sensitivity / epsilon of
    the Gaussian mechanism, for one entry of the sensitivity. *)
Definition gaussian_std (epsilon delta s : R) : R :=
  sqrt (2 * ln (125 / 100 / delta)) * s / epsilon.

Definition Rsum (xs : list R) : R := fold_right Rplus 0 xs.

(** The probability that a Bernoulli draw of parameter p is x. *)
Definition bernoulli_pmf (p x : R) : R :=
  if Req_dec_T x 1 then p else if Req_dec_T x 0 then 1 - p else 0.

Definition indicator (x y : R) : R := if Req_dec_T x y then 1 else 0.

(** The probability that the generator answers a request for one
    Bernoulli draw with the 0-d array [x]; a request of another form has no
    weight here. *)
Definition answer_probability (rq : request) (x : ndarray) : R :=
  match rq, elems x with
  | (Bernoulli p, []), [v] =>
      match elems p with
      | [q] => bernoulli_pmf q v
      | _ => 0
      end
  | _, _ => 0
  end.

(** The probability of a tape, the draws being independent, under the
    requests that were answered with it. *)
Fixpoint tape_probability (requests : list request) (tape : list ndarray) : R :=
  match requests, tape with
  | [], [] => 1
  | rq :: requests', x :: tape' =>
      answer_probability rq x * tape_probability requests' tape'
  | _, _ => 0
  end.

(** 1 when an execution returned the scalar [y] and 0 otherwise. *)
Definition returned_scalar (o : outcome pyval) (y : R) : R :=
  match o with
  | Returned (PyNd a) =>
      match elems a with
      | [v] => indicator v y
      | _ => 0
      end
  | _ => 0
  end.

(** The four outcomes of two draws of 0 or 1. *)
Definition coin_tapes : list (list ndarray) :=
  List.map (fun flips : R * R =>
              [Np.of_scalar (fst flips); Np.of_scalar (snd flips)])
    [(0, 0); (0, 1); (1, 0); (1, 1)].

(** The probability that [RandomizedResponseCoins.apply] answers [y] on the
    true value [x]: the sum, over the four outcomes of the two draws, of
    the probability of the outcome under the requests that [apply] made,
    when [apply] returned [y]. *)
Definition coins_answer_pmf (self : RandomizedResponseCoins.t) (x y : R) : R :=
  Rsum
    (List.map
       (fun tape =>
          let result := run (RandomizedResponseCoins.apply self (PyFloat x)) tape in
          tape_probability (fst result) tape * returned_scalar (snd result) y)
       coin_tapes).

(** The instance after a sequence of calls of [LaplaceMechanism.apply]. *)
Fixpoint laplace_after (self : LaplaceMechanism.t) (calls : list pyval)
  : LaplaceMechanism.t :=
  match calls with
  | [] => self
  | data :: calls' => laplace_after (fst (LaplaceMechanism.apply self data)) calls'
  end.

(** Every request that an execution makes satisfies [P], whatever the
    generator answers. *)
Definition all_requests {A : Type} (P : request -> Prop) (t : Rand A) : Prop :=
  forall tape, Forall P (fst (run t tape)).

Definition all_entries_positive (a : ndarray) : Prop :=
  Forall (fun x => 0 < x) (elems a).

(** A Normal request of location 0 and positive standard deviations. *)
Definition normal_request_ok (rq : request) : Prop :=
  match fst rq with
  | Normal loc scale => loc = 0 /\ all_entries_positive scale
  | _ => False
  end.

(** * Properties *)

(** ** Deciding comparisons of reals *)

Ltac case_real :=
  match goal with
  | |- context [Rle_dec ?a ?b] => destruct (Rle_dec a b)
  | |- context [Rlt_dec ?a ?b] => destruct (Rlt_dec a b)
  | |- context [Req_dec_T ?a ?b] => destruct (Req_dec_T a b)
  | H : context [Rle_dec ?a ?b] |- _ => destruct (Rle_dec a b)
  | H : context [Rlt_dec ?a ?b] |- _ => destruct (Rlt_dec a b)
  | H : context [Req_dec_T ?a ?b] |- _ => destruct (Req_dec_T a b)
  end.

Ltac real_cases := repeat (case_real; try lra; try discriminate).

(* Closes a positivity check of concrete entries. *)
Ltac positive_entries := cbn; unfold positive; real_cases; reflexivity.

(* Runs an execution on concrete inputs through the sign test of a sampler. *)
Ltac sampler_accepts :=
  repeat progress
    (cbn; try unfold np_random_laplace; try unfold np_random_normal;
     try unfold np_random; try unfold negative; real_cases);
  try reflexivity.

Lemma check_epsilon_delta_ok (epsilon delta : R) :
  check_epsilon_delta (epsilon, delta) = Ok tt <->
  0 < epsilon /\ 0 <= delta < 1.
Proof.
  unfold check_epsilon_delta. split.
  - intros H. real_cases.
  - intros [He [Hd0 Hd1]]. real_cases. reflexivity.
Qed.

Lemma check_epsilon_delta_err (epsilon delta : R) :
  check_epsilon_delta (epsilon, delta) = Ok tt \/
  check_epsilon_delta (epsilon, delta) = Err ValueError.
Proof.
  unfold check_epsilon_delta. real_cases; auto.
Qed.

Lemma check_pure_epsilon (epsilon : R) :
  check_epsilon_delta (epsilon, 0) = Ok tt <-> 0 < epsilon.
Proof.
  rewrite check_epsilon_delta_ok. lra.
Qed.

(** ** RandomizedResponseCoins: the reported budget *)

(** C9: whatever [prob_head_first] and [prob_head_second] are given to the
    constructor, [epsilon_delta] of the instance is the pair (ln 3, 0). *)
Theorem coins_epsilon_delta_fixed (prob_head_first prob_head_second : R) :
  RandomizedResponseCoins.epsilon_delta
    (RandomizedResponseCoins.init prob_head_first prob_head_second)
  = (ln 3, 0).
Proof. reflexivity. Qed.

(** ** RandomizedResponseBinary: construction *)

Section BinaryConstruction.

Import RandomizedResponseBinary.

Variable fa : FloatArith.
Variable check : R * R -> result unit.

(** The constructor passes on the error of the shared check. *)
Lemma init_check_fails (f0 f1 epsilon : R) (e : exn) :
  check (epsilon, 0) = Err e -> init fa check f0 f1 epsilon = Err e.
Proof. intros H. unfold init. rewrite H. reflexivity. Qed.

Lemma py_max_Rmax (a b : R) : py_max a b = Rmax a b.
Proof.
  unfold py_max, Rmax. destruct (Rlt_dec a b); destruct (Rle_dec a b); lra.
Qed.

(** Once the shared check has accepted the pair and f0, f1 are strictly
    inside (0,1), the constructor succeeds exactly when the two quotients
    and the logarithm are defined and epsilon is not below the logarithm. *)
Lemma init_inside (f0 f1 epsilon : R) :
  check (epsilon, 0) = Ok tt -> 0 < f0 < 1 -> 0 < f1 < 1 ->
  init fa check f0 f1 epsilon = Ok (mk f0 f1 epsilon)
  <-> f_sub fa 1 f1 <> 0 /\ f_sub fa 1 f0 <> 0
      /\ 0 < Rmax (f_div fa f0 (f_sub fa 1 f1)) (f_div fa f1 (f_sub fa 1 f0))
      /\ f_log fa (Rmax (f_div fa f0 (f_sub fa 1 f1))
                      (f_div fa f1 (f_sub fa 1 f0))) <= epsilon.
Proof.
  intros Hc H0 H1. unfold init. rewrite Hc. cbn [rbind].
  do 4 (case_real; [lra|]).
  unfold float_div.
  destruct (Req_dec_T (f_sub fa 1 f1) 0) as [E1|N1];
    [split; [discriminate | intros [H _]; contradiction]|].
  destruct (Req_dec_T (f_sub fa 1 f0) 0) as [E0|N0];
    [split; [discriminate | intros [_ [H _]]; contradiction]|].
  cbn [rbind]. unfold math_log. rewrite py_max_Rmax.
  destruct (Rle_dec (Rmax (f_div fa f0 (f_sub fa 1 f1))
                       (f_div fa f1 (f_sub fa 1 f0))) 0) as [Hm|Hm].
  - split; [discriminate | intros [_ [_ [H _]]]; lra].
  - cbn [rbind].
    destruct (Rlt_dec epsilon _) as [Hlt|Hge].
    + split; [discriminate | intros [_ [_ [_ H]]]; lra].
    + split; [intros _; repeat split; try assumption; lra | reflexivity].
Qed.

Lemma init_needs_check (f0 f1 epsilon : R) (self : t) :
  init fa check f0 f1 epsilon = Ok self ->
  check (epsilon, 0) = Ok tt /\ 0 < f0 < 1 /\ 0 < f1 < 1
  /\ self = mk f0 f1 epsilon.
Proof.
  unfold init. intros H.
  destruct (check (epsilon, 0)) as [[]|e]; cbn [rbind] in H; [|discriminate].
  split; [reflexivity|].
  repeat (case_real; [discriminate|]).
  destruct (float_div fa f0 _) as [a|]; cbn [rbind] in H; [|discriminate].
  destruct (float_div fa f1 _) as [b|]; cbn [rbind] in H; [|discriminate].
  destruct (math_log fa _) as [bound|]; cbn [rbind] in H; [|discriminate].
  destruct (Rlt_dec epsilon bound); [discriminate|].
  inversion H. repeat split; lra.
Qed.

End BinaryConstruction.

Lemma ln_3_ge_1 : 1 <= ln 3.
Proof.
  rewrite <- (ln_exp 1) at 1.
  destruct (Rle_lt_or_eq_dec _ _ exp_le_3) as [H|H].
  - left. apply ln_increasing; [apply exp_pos | exact H].
  - rewrite H. right. reflexivity.
Qed.

Lemma quarter_bound : min_epsilon (1 / 4) (1 / 4) <= -1.
Proof.
  unfold min_epsilon.
  replace (1 / 4 / (1 - 1 / 4)) with (/ 3) by lra.
  rewrite Rmax_left by lra.
  rewrite ln_Rinv by lra.
  pose proof ln_3_ge_1. lra.
Qed.

(** C1, as the code has it: whatever the shared epsilon/delta check and
    the floating-point arithmetic are, construction succeeds exactly when
    the shared check accepts the pair (epsilon, 0), f0 and f1 lie strictly
    inside (0,1), and epsilon is not below log(max(f0/(1-f1), f1/(1-f0)))
    as the arithmetic evaluates it, the two denominators being non-zero
    and the maximum positive.  For f0 = f1 = 0.5, where 1 - 0.5, 0.5 / 0.5
    and log(1) are exact, the bound is 0 and construction succeeds for
    every epsilon >= 0 that the shared check accepts. *)
Theorem binary_init_succeeds_iff
  (fa : FloatArith) (check : R * R -> result unit) (f0 f1 epsilon : R) :
  (RandomizedResponseBinary.init fa check f0 f1 epsilon
     = Ok (RandomizedResponseBinary.mk f0 f1 epsilon)
   <-> check (epsilon, 0) = Ok tt /\ 0 < f0 < 1 /\ 0 < f1 < 1
       /\ f_sub fa 1 f1 <> 0 /\ f_sub fa 1 f0 <> 0
       /\ 0 < Rmax (f_div fa f0 (f_sub fa 1 f1)) (f_div fa f1 (f_sub fa 1 f0))
       /\ f_log fa (Rmax (f_div fa f0 (f_sub fa 1 f1))
                       (f_div fa f1 (f_sub fa 1 f0))) <= epsilon)
  /\ (forall self,
        RandomizedResponseBinary.init fa check f0 f1 epsilon = Ok self ->
        self = RandomizedResponseBinary.mk f0 f1 epsilon)
  /\ (f_sub fa 1 (1 / 2) = 1 / 2 -> f_div fa (1 / 2) (1 / 2) = 1 ->
      f_log fa 1 = 0 ->
      0 <= epsilon -> check (epsilon, 0) = Ok tt ->
      RandomizedResponseBinary.init fa check (1 / 2) (1 / 2) epsilon
      = Ok (RandomizedResponseBinary.mk (1 / 2) (1 / 2) epsilon)).
Proof.
  split; [|split].
  - split.
    + intros H.
      destruct (init_needs_check fa check _ _ _ _ H) as [Hc [H0 [H1 _]]].
      apply (init_inside fa check _ _ _ Hc H0 H1) in H. tauto.
    + intros [Hc [H0 [H1 H]]]. apply (init_inside fa check _ _ _ Hc H0 H1).
      exact H.
  - intros self H. apply (init_needs_check fa check _ _ _ _ H).
  - intros Hsub Hdiv Hlog He Hc.
    apply (init_inside fa check); try lra; [exact Hc|].
    rewrite Hsub, Hdiv, Rmax_left by lra. rewrite Hlog.
    repeat split; lra.
Qed.

Lemma binary_init_succeeds_iff_witness :
  RandomizedResponseBinary.init exact_float check_epsilon_delta (1 / 2) (1 / 2) 1
  = Ok (RandomizedResponseBinary.mk (1 / 2) (1 / 2) 1).
Proof.
  apply (proj2 (proj2 (binary_init_succeeds_iff exact_float check_epsilon_delta
                         (1 / 2) (1 / 2) 1))).
  - cbn. lra.
  - cbn. lra.
  - cbn. apply ln_1.
  - lra.
  - apply check_pure_epsilon. lra.
Defined.

(** The claim without the shared check fails.  With f0 = f1 = 1/4 the bound
    is ln(1/3) <= -1, so epsilon = -1 meets the three conditions of the
    claim; the constructor raises, since the shared check refuses a
    negative epsilon and the constructor calls it first, whatever the
    arithmetic is. *)
Lemma binary_init_claim_fails :
  (0 < 1 / 4 < 1 /\ 0 < 1 / 4 < 1 /\ min_epsilon (1 / 4) (1 / 4) <= -1) /\
  (forall fa,
      RandomizedResponseBinary.init fa check_epsilon_delta (1 / 4) (1 / 4) (-1)
      = Err ValueError).
Proof.
  split; [repeat split; try lra; apply quarter_bound|].
  intros fa. apply init_check_fails.
  destruct (check_epsilon_delta_err (-1) 0) as [H|H]; [|exact H].
  apply check_pure_epsilon in H. lra.
Qed.

(** ** GaussianMechanism: construction *)

Lemma check_sensitivity_positive_err (s : pyval) :
  check_sensitivity_positive s = Ok tt \/
  check_sensitivity_positive s = Err ValueError.
Proof.
  destruct s; cbn; auto.
  - destruct (positive x); auto.
  - destruct (all_positive a); auto.
  - destruct (forallb _ d); auto.
Qed.

Lemma positive_true (x : R) : positive x = true <-> 0 < x.
Proof.
  unfold positive. destruct (Rlt_dec 0 x); split; intros; try easy.
Qed.

Lemma gaussian_init_ok (sensitivity : pyval) (epsilon delta : R)
  (query : option Query) :
  0 < epsilon < 1 -> 0 <= delta < 1 ->
  check_sensitivity_positive sensitivity = Ok tt ->
  GaussianMechanism.init sensitivity (epsilon, delta) query
  = Ok (GaussianMechanism.mk sensitivity (epsilon, delta) (default_query query)).
Proof.
  intros He Hd Hs. unfold GaussianMechanism.init.
  rewrite (proj2 (check_epsilon_delta_ok epsilon delta)) by lra.
  cbn [rbind fst]. destruct (Rle_dec 1 epsilon); [lra|].
  rewrite Hs. reflexivity.
Qed.

(** C2 fails on the code for delta = 0.  The constructor adds to the shared
    check only the test that epsilon is below 1 and has no test of delta:
    with epsilon = 1/2 and delta = 0 it returns an instance, although delta
    is not positive.  With epsilon = 1 it raises, as the claim says. *)
Theorem gaussian_init_accepts_delta_zero :
  GaussianMechanism.init (PyFloat 1) (1 / 2, 0) None
  = Ok (GaussianMechanism.mk (PyFloat 1) (1 / 2, 0) IdentityFunction)
  /\ (forall sensitivity delta query,
        GaussianMechanism.init sensitivity (1, delta) query = Err ValueError).
Proof.
  split.
  - apply gaussian_init_ok; [lra | lra |].
    cbn. rewrite (proj2 (positive_true 1)) by lra. reflexivity.
  - intros sensitivity delta query. unfold GaussianMechanism.init.
    destruct (check_epsilon_delta_err 1 delta) as [Hc|Hc];
      rewrite Hc; cbn [rbind fst]; auto.
    destruct (Rle_dec 1 1); [reflexivity | lra].
Qed.

(** ** Arrays and executions *)

Lemma shape_eqb_refl (s : list nat) : Np.shape_eqb s s = true.
Proof.
  unfold Np.shape_eqb. destruct (list_eq_dec Nat.eq_dec s s); congruence.
Qed.

Lemma shape_eqb_true (s t : list nat) : Np.shape_eqb s t = true <-> s = t.
Proof.
  unfold Np.shape_eqb. destruct (list_eq_dec Nat.eq_dec s t); split;
    congruence.
Qed.

Lemma fits_spec (sz : list nat) (x : ndarray) :
  fits sz x = true <-> shape x = sz /\ Np.well_formed x.
Proof.
  unfold fits, Np.well_formed. rewrite andb_true_iff, shape_eqb_true, Nat.eqb_eq.
  split; intros [H1 H2]; split; congruence.
Qed.

Lemma ufunc2_same_shape (f : R -> R -> R) (a b : ndarray) :
  shape b = shape a ->
  Np.ufunc2 f a b = Ok (mk_nd (shape a) (Np.zip_with f (elems a) (elems b))).
Proof.
  intros H. unfold Np.ufunc2. rewrite H, shape_eqb_refl. reflexivity.
Qed.

Lemma zip_with_length (f : R -> R -> R) (xs ys : list R) :
  length ys = length xs -> length (Np.zip_with f xs ys) = length xs.
Proof.
  intros H. unfold Np.zip_with.
  rewrite length_map, length_combine. lia.
Qed.

Lemma run_draw {A : Type} (d : dist) (sz : list nat) (k : ndarray -> Rand A)
  (x : ndarray) (tape : list ndarray) :
  fits sz x = true ->
  run (Draw d sz k) (x :: tape) =
  ((d, sz) :: fst (run (k x) tape), snd (run (k x) tape)).
Proof.
  intros H. cbn [run]. rewrite H. destruct (run (k x) tape). reflexivity.
Qed.

(** Executions do not see how binds are nested. *)
Lemma run_bind_assoc {A B C : Type} (t : Rand A) (g : A -> Rand B)
  (f : B -> Rand C) (tape : list ndarray) :
  run (bind (bind t g) f) tape = run (bind t (fun x => bind (g x) f)) tape.
Proof.
  revert tape. induction t as [a|e|d sz k IH]; intros tape.
  - reflexivity.
  - reflexivity.
  - cbn [bind run]. destruct tape as [|x tape]; [reflexivity|].
    destruct (fits sz x); [|reflexivity].
    rewrite IH. reflexivity.
Qed.

(** ** RandomizedResponseCoins: apply *)

Lemma coins_elements (xs fs ss : list R) :
  Np.zip_with Rplus
    (Np.zip_with Rmult xs fs)
    (Np.zip_with Rmult (List.map (fun y => 1 - y) fs) ss)
  = map3 coin_response xs fs ss.
Proof.
  revert fs ss. induction xs as [|x xs IH]; intros fs ss.
  - reflexivity.
  - destruct fs as [|f fs]; [reflexivity|].
    destruct ss as [|s ss]; [reflexivity|].
    cbn. unfold Np.zip_with in IH. rewrite IH. reflexivity.
Qed.

Lemma map3_length (f : R -> R -> R -> R) (xs ys zs : list R) :
  length ys = length xs -> length zs = length xs ->
  length (map3 f xs ys zs) = length xs.
Proof.
  revert ys zs. induction xs as [|x xs IH]; intros ys zs Hy Hz.
  - reflexivity.
  - destruct ys as [|y ys]; [discriminate|].
    destruct zs as [|z zs]; [discriminate|].
    cbn in *. rewrite IH; lia.
Qed.

(** C7: on binary data, answering the first request with [first] and the
    second with [second], [apply] asks for one Bernoulli array of success
    probability 1 - prob_head_first and one of success probability
    prob_head_second, both of the shape of the data, and returns
    data * first + (1 - first) * second elementwise, an array of the shape
    of the data. *)
Theorem coins_apply_closed_form
  (self : RandomizedResponseCoins.t) (data : pyval) (d first second : ndarray) :
  np_asarray data = PyNd d ->
  Np.well_formed d ->
  check_binary_data (PyNd d) = Ok tt ->
  fits (shape d) first = true ->
  fits (shape d) second = true ->
  run (RandomizedResponseCoins.apply self data) [first; second]
  = ([(Bernoulli (Np.of_scalar (1 - RandomizedResponseCoins._prob_head_first self)),
       shape d);
      (Bernoulli (Np.of_scalar (RandomizedResponseCoins._prob_head_second self)),
       shape d)],
     Returned (PyNd (coins_closed_form d first second)))
  /\ shape (coins_closed_form d first second) = shape d
  /\ Np.well_formed (coins_closed_form d first second).
Proof.
  intros Hd Hwf Hbin Hf Hs.
  pose proof (proj1 (fits_spec _ _) Hf) as [Hfs Hfw].
  pose proof (proj1 (fits_spec _ _) Hs) as [Hss Hsw].
  split; [|split].
  - unfold RandomizedResponseCoins.apply. rewrite Hd, Hbin.
    cbn [lift bind draw shape_of].
    rewrite run_draw by exact Hf. rewrite run_draw by exact Hs.
    cbn [as_numeric rbind].
    unfold Np.mul, Np.add.
    rewrite ufunc2_same_shape by exact Hfs. cbn [rbind].
    rewrite ufunc2_same_shape by (cbn; congruence). cbn [rbind].
    rewrite ufunc2_same_shape by (cbn; congruence). cbn [rbind].
    cbn. unfold coins_closed_form. rewrite <- coins_elements. reflexivity.
  - reflexivity.
  - unfold Np.well_formed in *. cbn [coins_closed_form elems shape].
    rewrite map3_length; congruence.
Qed.

Lemma coins_apply_closed_form_witness :
  run (RandomizedResponseCoins.apply RandomizedResponseCoins.init_default
         (PyNd (mk_nd [2%nat] [1; 0])))
      [mk_nd [2%nat] [0; 0]; mk_nd [2%nat] [1; 1]]
  = ([(Bernoulli (Np.of_scalar (1 - 1 / 2)), [2%nat]);
      (Bernoulli (Np.of_scalar (1 / 2)), [2%nat])],
     Returned (PyNd (coins_closed_form (mk_nd [2%nat] [1; 0])
                       (mk_nd [2%nat] [0; 0]) (mk_nd [2%nat] [1; 1])))).
Proof.
  apply (coins_apply_closed_form RandomizedResponseCoins.init_default
           (PyNd (mk_nd [2%nat] [1; 0])) (mk_nd [2%nat] [1; 0])
           (mk_nd [2%nat] [0; 0]) (mk_nd [2%nat] [1; 1])).
  - reflexivity.
  - reflexivity.
  - cbn. unfold is_binary. real_cases. reflexivity.
  - reflexivity.
  - reflexivity.
Defined.

(** ** RandomizedResponseBinary: apply *)

Section BinaryApply.

Import RandomizedResponseBinary.

(** The two masked assignments fill every entry: where the datum is 0 the
    entry is [a], elsewhere it is [b], whatever the array held before. *)
Lemma masked_fill (a b : R) (xs old : list R) :
  length old = length xs ->
  List.map (fun p : R * bool => if snd p then b else fst p)
    (combine
       (List.map (fun p : R * bool => if snd p then a else fst p)
          (combine old (List.map is_zero xs)))
       (List.map negb (List.map is_zero xs)))
  = List.map (fun x => if is_zero x then a else b) xs.
Proof.
  revert old. induction xs as [|x xs IH]; intros old Hlen.
  - destruct old; [reflexivity | discriminate].
  - destruct old as [|o old]; [discriminate|].
    cbn [List.map combine fst snd]. rewrite IH by (cbn in Hlen; lia).
    destruct (is_zero x); reflexivity.
Qed.

Lemma probabilities_filled (self : t) (d : ndarray) :
  Np.well_formed d ->
  set_where (set_where (np_empty (shape d)) (eq_zero d) (1 - _f0 self))
    (List.map negb (eq_zero d)) (_f1 self)
  = mk_nd (shape d)
      (List.map (fun x => if is_zero x then 1 - _f0 self else _f1 self) (elems d)).
Proof.
  intros Hwf. unfold set_where, np_empty, eq_zero. cbn [shape elems].
  f_equal. apply (masked_fill (1 - _f0 self) (_f1 self)).
  rewrite repeat_length. symmetry. exact Hwf.
Qed.

Lemma binary_entries (xs : list R) :
  forallb is_binary xs = true ->
  forall i x, nth_error xs i = Some x -> x = 0 \/ x = 1.
Proof.
  intros H i x Hx. rewrite forallb_forall in H.
  specialize (H x (nth_error_In _ _ Hx)). unfold is_binary in H.
  destruct (Req_dec_T x 0); [left; assumption|].
  destruct (Req_dec_T x 1); [right; assumption | discriminate].
Qed.

End BinaryApply.

(** C8: on binary data [apply] issues a single Bernoulli request, whose
    array of success probabilities has the shape of the data and holds f1
    at the positions where the datum is 1 and 1 - f0 where it is 0, and it
    returns the array drawn, unchanged. *)
Theorem binary_apply_probabilities
  (self : RandomizedResponseBinary.t) (data : pyval) (d response : ndarray) :
  np_asarray data = PyNd d ->
  Np.well_formed d ->
  check_binary_data (PyNd d) = Ok tt ->
  fits (shape d) response = true ->
  exists probabilities : ndarray,
    run (RandomizedResponseBinary.apply self data) [response]
    = ([(Bernoulli probabilities, shape d)], Returned (PyNd response))
    /\ shape probabilities = shape d
    /\ length (elems probabilities) = length (elems d)
    /\ (forall i, nth_error (elems d) i = Some 1 ->
          nth_error (elems probabilities) i = Some (RandomizedResponseBinary._f1 self))
    /\ (forall i, nth_error (elems d) i = Some 0 ->
          nth_error (elems probabilities) i
          = Some (1 - RandomizedResponseBinary._f0 self))
    /\ (forall i x, nth_error (elems d) i = Some x -> x = 0 \/ x = 1).
Proof.
  intros Hd Hwf Hbin Hfit.
  exists (mk_nd (shape d)
            (List.map (fun x => if RandomizedResponseBinary.is_zero x
                                then 1 - RandomizedResponseBinary._f0 self
                                else RandomizedResponseBinary._f1 self) (elems d))).
  split; [|split; [|split; [|split; [|split]]]].
  - unfold RandomizedResponseBinary.apply. rewrite Hd, Hbin.
    cbn [lift bind as_numeric].
    rewrite probabilities_filled by exact Hwf.
    cbn [shape draw bind]. rewrite run_draw by exact Hfit. reflexivity.
  - reflexivity.
  - cbn [elems]. apply length_map.
  - intros i Hi. cbn [elems]. rewrite nth_error_map, Hi. cbn.
    unfold RandomizedResponseBinary.is_zero. destruct (Req_dec_T 1 0); [lra | reflexivity].
  - intros i Hi. cbn [elems]. rewrite nth_error_map, Hi. cbn.
    unfold RandomizedResponseBinary.is_zero. destruct (Req_dec_T 0 0); [reflexivity | lra].
  - cbn in Hbin. destruct (forallb is_binary (elems d)) eqn:E; [|discriminate].
    apply binary_entries. exact E.
Qed.

Lemma binary_apply_probabilities_witness :
  exists probabilities : ndarray,
    run (RandomizedResponseBinary.apply
           (RandomizedResponseBinary.mk (9 / 10) (8 / 10) 3)
           (PyNd (mk_nd [2%nat] [1; 0])))
        [mk_nd [2%nat] [1; 1]]
    = ([(Bernoulli probabilities, [2%nat])], Returned (PyNd (mk_nd [2%nat] [1; 1])))
    /\ nth_error (elems probabilities) 0 = Some (8 / 10)
    /\ nth_error (elems probabilities) 1 = Some (1 - 9 / 10).
Proof.
  destruct (binary_apply_probabilities
              (RandomizedResponseBinary.mk (9 / 10) (8 / 10) 3)
              (PyNd (mk_nd [2%nat] [1; 0])) (mk_nd [2%nat] [1; 0])
              (mk_nd [2%nat] [1; 1]))
    as [p [Hrun [_ [_ [H1 [H0 _]]]]]].
  - reflexivity.
  - reflexivity.
  - cbn. unfold is_binary. real_cases. reflexivity.
  - reflexivity.
  - exists p. split; [exact Hrun|]. split.
    + apply (H1 0%nat). reflexivity.
    + apply (H0 1%nat). reflexivity.
Defined.

(** ** Sampler calls that numpy accepts *)

Lemma all_positive_spec (a : ndarray) :
  all_positive a = true <-> all_entries_positive a.
Proof.
  unfold all_positive, all_entries_positive.
  rewrite forallb_forall, Forall_forall.
  split; intros H x Hin; apply positive_true; auto.
Qed.

Lemma div_scalar_positive (a : ndarray) (epsilon : R) :
  0 < epsilon -> all_entries_positive a ->
  all_entries_positive (Np.div_scalar a epsilon).
Proof.
  intros He Ha. unfold all_entries_positive in *. cbn.
  apply Forall_forall. intros y Hin. apply in_map_iff in Hin as [x [<- Hx]].
  rewrite Forall_forall in Ha. apply Rdiv_lt_0_compat; auto.
Qed.

Lemma positive_asarray_numeric (v : pyval) (s : ndarray) :
  check_sensitivity_positive v = Ok tt ->
  as_numeric (np_asarray v) = Ok s -> all_entries_positive s.
Proof.
  destruct v as [| x | a | d | |]; cbn; intros Hpos Hs; try discriminate;
    inversion Hs; subst.
  - repeat constructor. apply positive_true.
    destruct (positive x); [reflexivity | discriminate].
  - apply all_positive_spec.
    destruct (all_positive s); [reflexivity | discriminate].
Qed.

Lemma positive_not_negative (a : ndarray) :
  all_entries_positive a -> existsb negative (elems a) = false.
Proof.
  unfold all_entries_positive. intros H.
  induction H as [|x xs Hx _ IH]; [reflexivity|].
  cbn. rewrite IH. unfold negative. destruct (Rlt_dec x 0); [lra | reflexivity].
Qed.

Lemma broadcast_rev_refl (sh : list nat) : broadcast_rev sh sh = true.
Proof.
  induction sh as [|n sh IH]; [reflexivity|].
  cbn. rewrite Nat.eqb_refl, orb_true_r. exact IH.
Qed.

Lemma broadcastable_refl (sh : list nat) : broadcastable_to sh sh = true.
Proof. apply broadcast_rev_refl. Qed.

Lemma broadcastable_0d (size : list nat) : broadcastable_to [] size = true.
Proof. reflexivity. Qed.

Lemma np_random_accepts (family : R -> ndarray -> dist) (loc : R)
  (scale : ndarray) (size : list nat) :
  all_entries_positive scale ->
  broadcastable_to (shape scale) size = true ->
  np_random family loc scale size = draw (family loc scale) size.
Proof.
  intros Hpos Hb. unfold np_random.
  rewrite (positive_not_negative _ Hpos), Hb. reflexivity.
Qed.

(** ** LaplaceMechanism: apply *)

Section LaplaceApply.

Import LaplaceMechanism.

Lemma init_inv (sensitivity : pyval) (epsilon : R) (query : option Query)
  (self : t) :
  init sensitivity epsilon query = Ok self ->
  self = mk sensitivity epsilon (default_query query) /\
  0 < epsilon /\ check_sensitivity_positive sensitivity = Ok tt.
Proof.
  unfold init. intros H.
  destruct (check_epsilon_delta_err epsilon 0) as [Hc|Hc];
    rewrite Hc in H; cbn [rbind] in H; [|discriminate].
  destruct (check_sensitivity_positive_err sensitivity) as [Hs|Hs];
    rewrite Hs in H; cbn [rbind] in H; [|discriminate].
  apply check_pure_epsilon in Hc. split; [congruence | auto].
Qed.

Lemma as_numeric_asarray (v : pyval) (a : ndarray) :
  as_numeric v = Ok a -> np_asarray v = PyNd a /\ is_scalar_or_ndarray v = true.
Proof.
  destruct v; cbn; intros H; try discriminate; inversion H; auto.
Qed.

Lemma asarray_numeric (v : pyval) (a : ndarray) :
  as_numeric (np_asarray v) = Ok a -> np_asarray v = PyNd a.
Proof.
  destruct v; cbn; intros H; try discriminate; inversion H; auto.
Qed.

Lemma np_add_noise (v noise : ndarray) :
  fits (shape v) noise = true -> Np.add v noise = Ok (noisy v noise).
Proof.
  intros H. apply fits_spec in H as [H _].
  unfold Np.add. rewrite ufunc2_same_shape by exact H. reflexivity.
Qed.

(** When numpy accepts the scale of every key, the comprehension over the
    items of a mapping draws once per key, in the order of the items, and
    pairs every key with its noisy array. *)
Lemma noisy_items_run {B : Type} (scale_of : string -> result ndarray)
  (sc : string -> ndarray) (items : list (string * ndarray))
  (noises : list ndarray) (f : list (string * ndarray) -> Rand B) :
  (forall kv, In kv items ->
     scale_of (fst kv) = Ok (sc (fst kv))
     /\ all_entries_positive (sc (fst kv))
     /\ broadcastable_to (shape (sc (fst kv))) (shape (snd kv)) = true) ->
  all_fit items noises ->
  run (bind (noisy_items scale_of items) f) noises =
  (laplace_requests sc items ++ fst (run (f (noisy_dict items noises)) []),
   snd (run (f (noisy_dict items noises)) [])).
Proof.
  intros Hsc Hfit. revert f. induction Hfit as [|[k v] n items noises Hn Hfit IH];
    intros f.
  - cbn. destruct (run (f []) []). reflexivity.
  - cbn [noisy_items].
    destruct (Hsc (k, v) (or_introl eq_refl)) as [Hk [Hpos Hb]].
    cbn [fst snd] in Hk, Hpos, Hb. rewrite Hk.
    cbn [lift bind fst snd]. unfold np_random_laplace.
    rewrite np_random_accepts by assumption. cbn [draw bind].
    rewrite run_draw by exact Hn.
    rewrite np_add_noise by exact Hn. cbn [lift bind].
    assert (Hsc' : forall kv, In kv items ->
              scale_of (fst kv) = Ok (sc (fst kv))
              /\ all_entries_positive (sc (fst kv))
              /\ broadcastable_to (shape (sc (fst kv))) (shape (snd kv)) = true)
      by (intros kv Hin; apply Hsc; right; exact Hin).
    specialize (IH Hsc').
    rewrite run_bind_assoc. cbn [bind].
    rewrite IH. reflexivity.
Qed.

Lemma dict_get_has_key {V : Type} (d : list (string * V)) (k : string) :
  has_key d k = true -> exists v, dict_get d k = Ok v.
Proof.
  unfold has_key, dict_keys. induction d as [|[k' v] d IH]; cbn.
  - discriminate.
  - destruct (String.eqb k k'); [eauto | exact IH].
Qed.

Lemma dict_get_scaled (d : list (string * ndarray)) (epsilon : R) (k : string)
  (s : ndarray) :
  dict_get d k = Ok s ->
  dict_get (List.map (fun kv : string * ndarray =>
                        (fst kv, Np.div_scalar (snd kv) epsilon)) d) k
  = Ok (Np.div_scalar s epsilon).
Proof.
  induction d as [|[k' v] d IH]; cbn.
  - discriminate.
  - destruct (String.eqb k k'); [congruence | exact IH].
Qed.

Lemma same_keys_covers {V W : Type} (s : list (string * V))
  (q : list (string * W)) (kv : string * W) :
  same_keys s q = true -> In kv q -> has_key s (fst kv) = true.
Proof.
  unfold same_keys. rewrite andb_true_iff. intros [_ H] Hin.
  rewrite forallb_forall in H. apply H. unfold dict_keys.
  apply in_map. exact Hin.
Qed.

(** In a mapping without repeated keys, the entry of a key is what the
    lookup returns. *)
Lemma dict_get_unique {V : Type} (d : list (string * V)) (k : string) (v : V) :
  NoDup (dict_keys d) -> In (k, v) d -> dict_get d k = Ok v.
Proof.
  unfold dict_keys. induction d as [|[k' w] d IH]; cbn; intros Hnd Hin.
  - contradiction.
  - inversion Hnd as [|? ? Hnotin Hnd']. subst.
    destruct (String.eqb_spec k k') as [->|Hne].
    + destruct Hin as [Heq|Hin]; [congruence|].
      exfalso. apply Hnotin. apply (in_map fst) in Hin. exact Hin.
    + destruct Hin as [Heq|Hin]; [congruence|]. apply IH; assumption.
Qed.

Lemma dict_get_entry {V : Type} (d : list (string * V)) (k : string) (v : V) :
  dict_get d k = Ok v -> In (k, v) d.
Proof.
  induction d as [|[k' w] d IH]; cbn; [discriminate|].
  destruct (String.eqb_spec k k') as [->|Hne].
  - intros H. inversion H. left. reflexivity.
  - intros H. right. apply IH. exact H.
Qed.

Lemma nth_error_zip_with (f : R -> R -> R) (xs ys : list R) (i : nat) (x y : R) :
  nth_error xs i = Some x -> nth_error ys i = Some y ->
  nth_error (Np.zip_with f xs ys) i = Some (f x y).
Proof.
  unfold Np.zip_with. revert ys i. induction xs as [|x0 xs IH]; intros ys i Hx Hy.
  - destruct i; discriminate.
  - destruct ys as [|y0 ys]; [destruct i; discriminate|].
    destruct i as [|i]; cbn in *.
    + congruence.
    + apply IH; assumption.
Qed.

Lemma nth_error_noisy_dict (items : list (string * ndarray))
  (noises : list ndarray) (j : nat) (k : string) (v n : ndarray) :
  nth_error items j = Some (k, v) -> nth_error noises j = Some n ->
  nth_error (noisy_dict items noises) j = Some (k, noisy v n).
Proof.
  revert noises j. induction items as [|[k0 v0] items IH]; intros noises j Hi Hn.
  - destruct j; discriminate.
  - destruct noises as [|n0 noises]; [destruct j; discriminate|].
    destruct j as [|j]; cbn in *.
    + congruence.
    + apply IH; assumption.
Qed.

Lemma noisy_dict_length (items : list (string * ndarray)) (noises : list ndarray) :
  all_fit items noises -> length (noisy_dict items noises) = length items.
Proof.
  induction 1 as [|[k v] n items noises _ _ IH]; [reflexivity|].
  cbn. rewrite IH. reflexivity.
Qed.

End LaplaceApply.

Lemma laplace_init_ok (sensitivity : pyval) (epsilon : R) (query : option Query) :
  0 < epsilon ->
  check_sensitivity_positive sensitivity = Ok tt ->
  LaplaceMechanism.init sensitivity epsilon query
  = Ok (LaplaceMechanism.mk sensitivity epsilon (default_query query)).
Proof.
  intros He Hs. unfold LaplaceMechanism.init.
  rewrite (proj2 (check_pure_epsilon epsilon) He), Hs. reflexivity.
Qed.

(** C4: for a mechanism built by the constructor (positive sensitivity and
    epsilon), when the sensitivity passes the shape check, [apply] returns
    the query result plus Laplace noise of location 0 and of the shape of
    the query result: entry i of the output is entry i of the query result
    plus entry i of the array the generator returned.  For a scalar or
    array result there is one request, and entry i of its scale is entry i
    of the sensitivity divided by epsilon.  For a mapping result there is
    one request per key, in the order of the keys: under a scalar
    sensitivity x its scale is x / epsilon; under a mapping sensitivity
    without repeated keys, whose entries can be broadcast to the arrays of
    the result, the scale of key k is, entry by entry, the sensitivity
    stored under k divided by epsilon, whatever is stored under the other
    keys. *)
Theorem laplace_apply_noise
  (sensitivity : pyval) (epsilon : R) (query : option Query)
  (self : LaplaceMechanism.t) (data : pyval) :
  LaplaceMechanism.init sensitivity epsilon query = Ok self ->
  (forall (q s noise : ndarray),
      as_numeric (LaplaceMechanism._query self data) = Ok q ->
      as_numeric (np_asarray sensitivity) = Ok s ->
      check_sensitivity_shape (np_asarray sensitivity)
        (LaplaceMechanism._query self data) = Ok tt ->
      Np.well_formed q ->
      fits (shape q) noise = true ->
      exists scale output : ndarray,
        run (snd (LaplaceMechanism.apply self data)) [noise]
        = ([(Laplace 0 scale, shape q)], Returned (PyNd output))
        /\ shape scale = shape s
        /\ length (elems scale) = length (elems s)
        /\ (forall i x, nth_error (elems s) i = Some x ->
              nth_error (elems scale) i = Some (x / epsilon))
        /\ shape output = shape q
        /\ length (elems output) = length (elems q)
        /\ (forall i x n,
              nth_error (elems q) i = Some x ->
              nth_error (elems noise) i = Some n ->
              nth_error (elems output) i = Some (x + n)))
  /\ (forall (items : list (string * ndarray)) (x : R) (noises : list ndarray),
      LaplaceMechanism._query self data = PyDict items ->
      sensitivity = PyFloat x ->
      all_fit items noises ->
      exists (requests : list request) (outputs : list (string * ndarray)),
        run (snd (LaplaceMechanism.apply self data)) noises
        = (requests, Returned (PyDict outputs))
        /\ length requests = length items
        /\ length outputs = length items
        /\ (forall j k v n,
              nth_error items j = Some (k, v) ->
              nth_error noises j = Some n ->
              exists output : ndarray,
                nth_error requests j
                = Some (Laplace 0 (mk_nd [] [x / epsilon]), shape v)
                /\ nth_error outputs j = Some (k, output)
                /\ shape output = shape v
                /\ (forall i a b,
                      nth_error (elems v) i = Some a ->
                      nth_error (elems n) i = Some b ->
                      nth_error (elems output) i = Some (a + b))))
  /\ (forall (items s : list (string * ndarray)) (noises : list ndarray),
      LaplaceMechanism._query self data = PyDict items ->
      sensitivity = PyDict s ->
      check_sensitivity_shape sensitivity (PyDict items) = Ok tt ->
      NoDup (dict_keys s) ->
      (forall k v sk, In (k, v) items -> In (k, sk) s ->
         broadcastable_to (shape sk) (shape v) = true) ->
      all_fit items noises ->
      exists (requests : list request) (outputs : list (string * ndarray)),
        run (snd (LaplaceMechanism.apply self data)) noises
        = (requests, Returned (PyDict outputs))
        /\ length requests = length items
        /\ length outputs = length items
        /\ (forall j k v n,
              nth_error items j = Some (k, v) ->
              nth_error noises j = Some n ->
              exists sk scale output : ndarray,
                In (k, sk) s
                /\ nth_error requests j = Some (Laplace 0 scale, shape v)
                /\ shape scale = shape sk
                /\ length (elems scale) = length (elems sk)
                /\ (forall i y, nth_error (elems sk) i = Some y ->
                      nth_error (elems scale) i = Some (y / epsilon))
                /\ nth_error outputs j = Some (k, output)
                /\ shape output = shape v
                /\ (forall i a b,
                      nth_error (elems v) i = Some a ->
                      nth_error (elems n) i = Some b ->
                      nth_error (elems output) i = Some (a + b)))).
Proof.
  intros Hinit. apply init_inv in Hinit as [-> [Heps Hpos]].
  cbn [LaplaceMechanism._query].
  split; [|split].
  - intros q s noise Hq Hs Hcheck Hwf Hfit.
    exists (Np.div_scalar s epsilon), (noisy q noise).
    assert (Hspos : all_entries_positive s)
      by (eapply positive_asarray_numeric; eassumption).
    assert (Hbroad : broadcastable_to (shape s) (shape q) = true).
    { apply asarray_numeric in Hs. rewrite Hs in Hcheck.
      destruct (default_query query data) as [| y | a | d | |];
        cbn in Hq; try discriminate; inversion Hq; subst q; cbn in Hcheck;
        (destruct (Np.is_0d s) eqn:H0;
         [ unfold Np.is_0d in H0; destruct (shape s); [reflexivity | discriminate]
         | cbn in Hcheck;
           match type of Hcheck with
           | (if ?c then _ else _) = _ =>
               destruct c eqn:Hsh; [|discriminate]
           end;
           apply shape_eqb_true in Hsh; cbn in Hsh; rewrite Hsh;
           apply broadcastable_refl ]). }
    split; [|repeat split].
    + apply as_numeric_asarray in Hq as [Hqa Hisnum].
      apply asarray_numeric in Hs.
      unfold LaplaceMechanism.apply.
      cbn [LaplaceMechanism._query LaplaceMechanism._sensitivity
           LaplaceMechanism._epsilon LaplaceMechanism.set_sensitivity].
      rewrite Hisnum. cbn [snd].
      rewrite Hcheck, Hs, Hqa. cbn [lift bind py_div shape_of].
      unfold np_random_laplace.
      rewrite np_random_accepts
        by (try apply div_scalar_positive; assumption).
      cbn [draw bind].
      rewrite run_draw by exact Hfit.
      unfold py_add. cbn [as_numeric rbind].
      rewrite np_add_noise by exact Hfit. reflexivity.
    + cbn. apply length_map.
    + intros i x Hx. cbn. rewrite nth_error_map, Hx. reflexivity.
    + cbn. apply zip_with_length.
      apply fits_spec in Hfit as [Hsh Hlen].
      unfold Np.well_formed in Hwf, Hlen. congruence.
    + intros i x n Hx Hn. cbn. apply nth_error_zip_with; assumption.
  - intros items x noises Hq -> Hfit.
    exists (laplace_requests (fun _ => Np.of_scalar (x / epsilon)) items),
           (noisy_dict items noises).
    assert (Hx : 0 < x).
    { cbn in Hpos. apply positive_true. destruct (positive x);
        [reflexivity | discriminate]. }
    split; [|split; [|split]].
    + unfold LaplaceMechanism.apply.
      cbn [LaplaceMechanism._query LaplaceMechanism._sensitivity
           LaplaceMechanism._epsilon].
      rewrite Hq. cbn [is_scalar_or_ndarray snd check_sensitivity_shape lift bind].
      unfold py_div. destruct (Req_dec_T epsilon 0); [lra|].
      cbn [lift bind].
      rewrite (noisy_items_run _ (fun _ => Np.of_scalar (x / epsilon))).
      * cbn. rewrite app_nil_r. reflexivity.
      * intros kv _. split; [reflexivity|]. split; [|reflexivity].
        repeat constructor. apply Rdiv_lt_0_compat; assumption.
      * exact Hfit.
    + apply length_map.
    + apply noisy_dict_length. exact Hfit.
    + intros j k v n Hj Hn. exists (noisy v n).
      split; [|split; [|split]].
      * unfold laplace_requests. rewrite nth_error_map, Hj. reflexivity.
      * apply nth_error_noisy_dict; assumption.
      * reflexivity.
      * intros i a b Ha Hb. cbn. apply nth_error_zip_with; assumption.
  - intros items s noises Hq -> Hcheck Hnd Hbroad Hfit.
    assert (Hkeys : same_keys s items = true).
    { cbn in Hcheck. destruct (same_keys s items); [reflexivity | discriminate]. }
    assert (Hallpos : forall k sk, In (k, sk) s -> all_entries_positive sk).
    { intros k sk Hin. cbn in Hpos.
      destruct (forallb (fun kv : string * ndarray => all_positive (snd kv)) s)
        eqn:Hall; [|discriminate].
      rewrite forallb_forall in Hall. apply all_positive_spec.
      exact (Hall (k, sk) Hin). }
    assert (Hscale : forall kv, In kv items ->
              exists sk, In (fst kv, sk) s /\
                         per_key_scale s epsilon (fst kv) = Np.div_scalar sk epsilon).
    { intros kv Hin.
      destruct (dict_get_has_key s (fst kv) (same_keys_covers _ _ _ Hkeys Hin))
        as [sk Hsk].
      exists sk. split; [apply dict_get_entry; exact Hsk|].
      unfold per_key_scale. rewrite Hsk. reflexivity. }
    exists (laplace_requests (per_key_scale s epsilon) items),
           (noisy_dict items noises).
    split; [|split; [|split]].
    + unfold LaplaceMechanism.apply.
      cbn [LaplaceMechanism._query LaplaceMechanism._sensitivity
           LaplaceMechanism._epsilon].
      rewrite Hq. cbn [is_scalar_or_ndarray snd]. rewrite Hcheck.
      cbn [lift bind].
      rewrite (noisy_items_run _ (per_key_scale s epsilon)).
      * cbn. rewrite app_nil_r. reflexivity.
      * intros [k v] Hin. destruct (Hscale (k, v) Hin) as [sk [Hsk Hpk]].
        cbn [fst snd] in *. rewrite Hpk. split; [|split].
        -- apply dict_get_scaled. apply dict_get_unique; assumption.
        -- apply div_scalar_positive; [assumption | eauto].
        -- cbn. eapply Hbroad; eassumption.
      * exact Hfit.
    + apply length_map.
    + apply noisy_dict_length. exact Hfit.
    + intros j k v n Hj Hn.
      destruct (Hscale (k, v) (nth_error_In _ _ Hj)) as [sk [Hsk Hpk]].
      cbn [fst] in Hsk, Hpk.
      exists sk, (Np.div_scalar sk epsilon), (noisy v n).
      split; [exact Hsk|]. split; [|split; [|split; [|split; [|split; [|split]]]]].
      * unfold laplace_requests. rewrite nth_error_map, Hj. cbn [option_map fst snd].
        rewrite Hpk. reflexivity.
      * reflexivity.
      * cbn. apply length_map.
      * intros i y Hy. cbn. rewrite nth_error_map, Hy. reflexivity.
      * apply nth_error_noisy_dict; assumption.
      * reflexivity.
      * intros i a b Ha Hb. cbn. apply nth_error_zip_with; assumption.
Qed.

Lemma laplace_apply_noise_witness :
  (exists scale output : ndarray,
     run (snd (LaplaceMechanism.apply
                 (LaplaceMechanism.mk (PyFloat 1) 2 IdentityFunction)
                 (PyNd (mk_nd [2%nat] [10; 20]))))
         [mk_nd [2%nat] [3; 4]]
     = ([(Laplace 0 scale, [2%nat])], Returned (PyNd output))
     /\ nth_error (elems scale) 0 = Some (1 / 2)
     /\ nth_error (elems output) 1 = Some (20 + 4))
  /\ (exists (requests : list request) (outputs : list (string * ndarray)),
        run (snd (LaplaceMechanism.apply
                    (LaplaceMechanism.mk
                       (PyDict [("a"%string, Np.of_scalar 1);
                                ("b"%string, Np.of_scalar 3)])
                       2 IdentityFunction)
                    (PyDict [("b"%string, mk_nd [1%nat] [7]);
                             ("a"%string, mk_nd [2%nat] [10; 20])])))
            [mk_nd [1%nat] [5]; mk_nd [2%nat] [3; 4]]
        = (requests, Returned (PyDict outputs))
        /\ exists scale output : ndarray,
             nth_error requests 0 = Some (Laplace 0 scale, [1%nat])
             /\ nth_error (elems scale) 0 = Some (3 / 2)
             /\ nth_error outputs 0 = Some ("b"%string, output)
             /\ nth_error (elems output) 0 = Some (7 + 5)).
Proof.
  split.
  - destruct (laplace_apply_noise (PyFloat 1) 2 None
                (LaplaceMechanism.mk (PyFloat 1) 2 IdentityFunction)
                (PyNd (mk_nd [2%nat] [10; 20]))) as [Harray _].
    + apply laplace_init_ok; [lra | positive_entries].
    + destruct (Harray (mk_nd [2%nat] [10; 20]) (Np.of_scalar 1)
                  (mk_nd [2%nat] [3; 4]) eq_refl eq_refl eq_refl eq_refl eq_refl)
        as [scale [output [Hrun [_ [_ [Hscale [_ [_ Hout]]]]]]]].
      exists scale, output. split; [exact Hrun|]. split.
      * exact (Hscale 0%nat 1 eq_refl).
      * exact (Hout 1%nat 20 4 eq_refl eq_refl).
  - destruct (laplace_apply_noise
                (PyDict [("a"%string, Np.of_scalar 1); ("b"%string, Np.of_scalar 3)])
                2 None
                (LaplaceMechanism.mk
                   (PyDict [("a"%string, Np.of_scalar 1);
                            ("b"%string, Np.of_scalar 3)])
                   2 IdentityFunction)
                (PyDict [("b"%string, mk_nd [1%nat] [7]);
                         ("a"%string, mk_nd [2%nat] [10; 20])]))
      as [_ [_ Hdict]].
    + apply laplace_init_ok; [lra | positive_entries].
    + assert (Hfit : all_fit [("b"%string, mk_nd [1%nat] [7]);
                              ("a"%string, mk_nd [2%nat] [10; 20])]
                       [mk_nd [1%nat] [5]; mk_nd [2%nat] [3; 4]])
        by (repeat constructor).
      assert (Hnd : NoDup (dict_keys [("a"%string, Np.of_scalar 1);
                                      ("b"%string, Np.of_scalar 3)])).
      { cbn. constructor.
        - intros [H | []]. discriminate.
        - constructor; [intros [] | constructor]. }
      assert (Hbroad : forall (k : string) (v sk : ndarray),
                 In (k, v) [("b"%string, mk_nd [1%nat] [7]);
                            ("a"%string, mk_nd [2%nat] [10; 20])] ->
                 In (k, sk) [("a"%string, Np.of_scalar 1);
                             ("b"%string, Np.of_scalar 3)] ->
                 broadcastable_to (shape sk) (shape v) = true).
      { intros k v sk _ [H | [H | []]]; inversion H; reflexivity. }
      destruct (Hdict _ _ _ eq_refl eq_refl eq_refl Hnd Hbroad Hfit)
        as [requests [outputs [Hrun [_ [_ Hkey]]]]].
      exists requests, outputs. split; [exact Hrun|].
      destruct (Hkey 0%nat "b"%string (mk_nd [1%nat] [7]) (mk_nd [1%nat] [5])
                  eq_refl eq_refl)
        as [sk [scale [output [Hin [Hrq [_ [_ [Hsc [Hout [_ Hsum]]]]]]]]]].
      exists scale, output. split; [exact Hrq|]. split; [|split].
      * destruct Hin as [H | [H | []]]; [discriminate H | inversion H; subst sk].
        exact (Hsc 0%nat 3 eq_refl).
      * exact Hout.
      * exact (Hsum 0%nat 7 5 eq_refl eq_refl).
Defined.

(** C10: when the query result is neither a scalar, nor an array, nor a
    mapping, [apply] returns None: no request is made to the generator, no
    error is raised and the instance is left as it was. *)
Theorem laplace_apply_other_result
  (self : LaplaceMechanism.t) (data : pyval) (tape : list ndarray) :
  is_scalar_or_ndarray (LaplaceMechanism._query self data) = false ->
  is_dict (LaplaceMechanism._query self data) = false ->
  LaplaceMechanism.apply self data = (self, Ret PyNone)
  /\ run (snd (LaplaceMechanism.apply self data)) tape = ([], Returned PyNone).
Proof.
  intros Hnum Hdict.
  assert (H : LaplaceMechanism.apply self data = (self, Ret PyNone)).
  { unfold LaplaceMechanism.apply. rewrite Hnum.
    destruct (LaplaceMechanism._query self data); try reflexivity.
    discriminate. }
  split; [exact H|]. rewrite H. reflexivity.
Qed.

Lemma laplace_apply_other_result_witness :
  run (snd (LaplaceMechanism.apply
              (LaplaceMechanism.mk (PyFloat 1) 1 IdentityFunction)
              (PyList [0; 1])))
      [mk_nd [2%nat] [3; 4]]
  = ([], Returned PyNone).
Proof.
  apply (laplace_apply_other_result
           (LaplaceMechanism.mk (PyFloat 1) 1 IdentityFunction)
           (PyList [0; 1]) [mk_nd [2%nat] [3; 4]]); reflexivity.
Defined.

(** ** LaplaceMechanism: what a call leaves behind *)

(** A call never touches epsilon or the query, and it leaves the
    sensitivity alone unless the query result is a scalar or an array. *)
Lemma laplace_apply_frame (self : LaplaceMechanism.t) (data : pyval) :
  LaplaceMechanism._epsilon (fst (LaplaceMechanism.apply self data))
    = LaplaceMechanism._epsilon self
  /\ LaplaceMechanism._query (fst (LaplaceMechanism.apply self data))
    = LaplaceMechanism._query self
  /\ (is_scalar_or_ndarray (LaplaceMechanism._query self data) = false ->
      fst (LaplaceMechanism.apply self data) = self)
  /\ (is_scalar_or_ndarray (LaplaceMechanism._query self data) = true ->
      LaplaceMechanism._sensitivity (fst (LaplaceMechanism.apply self data))
      = np_asarray (LaplaceMechanism._sensitivity self)).
Proof.
  unfold LaplaceMechanism.apply.
  destruct (is_scalar_or_ndarray (LaplaceMechanism._query self data)) eqn:E.
  - repeat split; try reflexivity. discriminate.
  - destruct (LaplaceMechanism._query self data);
      repeat split; try reflexivity; discriminate.
Qed.

(** C3 fails on the code for [LaplaceMechanism]: the scalar-or-array branch
    of [apply] assigns [np.asarray(self._sensitivity)] to the instance
    before it validates anything.  Both instances below are accepted by the
    constructor.  In the first the call succeeds and the float sensitivity
    has become an array.  In the second the call raises and yet the
    mapping sensitivity has been replaced by an object array, after which a
    mapping query that the instance served before is refused. *)
Theorem laplace_apply_rebinds_sensitivity :
  let scalar := LaplaceMechanism.mk (PyFloat 1) 1 IdentityFunction in
  let keyed :=
    LaplaceMechanism.mk (PyDict [("a"%string, Np.of_scalar 1)]) 1 IdentityFunction in
  let keyed_data := PyDict [("a"%string, mk_nd [1%nat] [0])] in
  (LaplaceMechanism.init (PyFloat 1) 1 None = Ok scalar
   /\ snd (run (snd (LaplaceMechanism.apply scalar (PyFloat 0))) [Np.of_scalar 0])
      = Returned (PyNd (noisy (Np.of_scalar 0) (Np.of_scalar 0)))
   /\ LaplaceMechanism._sensitivity (fst (LaplaceMechanism.apply scalar (PyFloat 0)))
      = PyNd (Np.of_scalar 1)
   /\ fst (LaplaceMechanism.apply scalar (PyFloat 0)) <> scalar)
  /\ (LaplaceMechanism.init (PyDict [("a"%string, Np.of_scalar 1)]) 1 None = Ok keyed
      /\ snd (run (snd (LaplaceMechanism.apply keyed (PyNd (mk_nd [1%nat] [0])))) [])
         = Raised ValueError
      /\ LaplaceMechanism._sensitivity
           (fst (LaplaceMechanism.apply keyed (PyNd (mk_nd [1%nat] [0]))))
         = PyObjNd (PyDict [("a"%string, Np.of_scalar 1)])
      /\ fst (LaplaceMechanism.apply keyed (PyNd (mk_nd [1%nat] [0]))) <> keyed
      /\ snd (run (snd (LaplaceMechanism.apply keyed keyed_data)) [mk_nd [1%nat] [0]])
         = Returned (PyDict [("a"%string, noisy (mk_nd [1%nat] [0]) (mk_nd [1%nat] [0]))])
      /\ snd (run (snd (LaplaceMechanism.apply
                          (fst (LaplaceMechanism.apply keyed (PyNd (mk_nd [1%nat] [0]))))
                          keyed_data))
                [mk_nd [1%nat] [0]])
         = Raised ValueError).
Proof.
  cbv zeta. split.
  - split; [apply laplace_init_ok; [lra | positive_entries]|].
    split; [|split].
    + sampler_accepts.
    + reflexivity.
    + cbn. intros H. inversion H.
  - split; [apply laplace_init_ok; [lra | positive_entries]|].
    split; [|split; [|split; [|split]]].
    + reflexivity.
    + reflexivity.
    + cbn. intros H. inversion H.
    + sampler_accepts.
    + reflexivity.
Qed.

(** ** GaussianMechanism: apply *)

Lemma log_ratio_positive (delta : R) :
  0 < delta < 1 -> 0 < ln (125 / 100 / delta).
Proof.
  intros [Hpos Hlt].
  assert (Hratio : 1 < 125 / 100 / delta).
  { pose proof (Rinv_0_lt_compat delta Hpos) as Hinv.
    assert (Hone : delta * / delta = 1) by (apply Rinv_r; lra).
    unfold Rdiv. nra. }
  pose proof (ln_increasing 1 (125 / 100 / delta) ltac:(lra) Hratio) as Hln.
  rewrite ln_1 in Hln. exact Hln.
Qed.

Lemma std_factor_defined (delta : R) :
  0 < delta < 1 ->
  GaussianMechanism.std_factor delta = Ok (sqrt (2 * ln (125 / 100 / delta))).
Proof.
  intros Hd. pose proof (log_ratio_positive delta Hd) as Hln.
  unfold GaussianMechanism.std_factor, math_sqrt.
  destruct (Rle_dec delta 0); [lra|].
  destruct (Rlt_dec (2 * ln (125 / 100 / delta)) 0); [lra | reflexivity].
Qed.

Lemma std_factor_positive (delta c : R) :
  0 <= delta < 1 -> GaussianMechanism.std_factor delta = Ok c -> 0 < c.
Proof.
  intros [Hd0 Hd1] H. destruct Hd0 as [Hpos|Hzero].
  - rewrite std_factor_defined in H by lra. inversion H.
    apply sqrt_lt_R0.
    pose proof (log_ratio_positive delta (conj Hpos Hd1)). lra.
  - subst delta. unfold GaussianMechanism.std_factor in H.
    destruct (Rle_dec 0 0); [discriminate | lra].
Qed.

Lemma scale_by_positive (c : R) (a : ndarray) :
  0 < c -> all_entries_positive a -> all_entries_positive (Np.scale_by c a).
Proof.
  intros Hc Ha. unfold all_entries_positive in *. cbn.
  apply Forall_forall. intros y Hin. apply in_map_iff in Hin as [x [<- Hx]].
  rewrite Forall_forall in Ha. apply Rmult_lt_0_compat; auto.
Qed.

Lemma gaussian_init_inv (sensitivity : pyval) (epsilon_delta : R * R)
  (query : option Query) (self : GaussianMechanism.t) :
  GaussianMechanism.init sensitivity epsilon_delta query = Ok self ->
  self = GaussianMechanism.mk sensitivity epsilon_delta (default_query query) /\
  0 < fst epsilon_delta < 1 /\ 0 <= snd epsilon_delta < 1.
Proof.
  destruct epsilon_delta as [epsilon delta]. unfold GaussianMechanism.init.
  cbn [fst snd]. intros H.
  destruct (check_epsilon_delta_err epsilon delta) as [Hc|Hc];
    rewrite Hc in H; cbn [rbind] in H; [|discriminate].
  apply check_epsilon_delta_ok in Hc.
  destruct (Rle_dec 1 epsilon); [discriminate|].
  destruct (check_sensitivity_positive_err sensitivity) as [Hs|Hs];
    rewrite Hs in H; cbn [rbind] in H; [|discriminate].
  split; [congruence | lra].
Qed.

Lemma gaussian_init_positive (sensitivity : pyval) (epsilon_delta : R * R)
  (query : option Query) (self : GaussianMechanism.t) :
  GaussianMechanism.init sensitivity epsilon_delta query = Ok self ->
  check_sensitivity_positive sensitivity = Ok tt.
Proof.
  destruct epsilon_delta as [epsilon delta]. unfold GaussianMechanism.init.
  intros H.
  destruct (check_epsilon_delta (epsilon, delta)); cbn [rbind] in H;
    [|discriminate].
  destruct (Rle_dec 1 (fst (epsilon, delta))); [discriminate|].
  destruct (check_sensitivity_positive_err sensitivity) as [Hs|Hs];
    rewrite Hs in H; [exact Hs | discriminate].
Qed.

(** C5: for a mechanism built by the constructor with a positive delta,
    whose sensitivity passes the shape check against a scalar or array
    query result, [apply] issues one Normal request of location 0 and of
    the shape of the query result; entry i of its standard deviation is
    sqrt(2 ln(1.25/delta)) * s / epsilon for entry i, s, of the
    sensitivity; and [apply] returns an array of the shape of the query
    result whose entry i is entry i of the query result plus entry i of
    the array the generator returned. *)
Theorem gaussian_apply_noise
  (sensitivity : pyval) (epsilon delta : R) (query : option Query)
  (self : GaussianMechanism.t) (data : pyval) (q s noise : ndarray) :
  GaussianMechanism.init sensitivity (epsilon, delta) query = Ok self ->
  0 < delta ->
  np_asarray (GaussianMechanism._query self data) = PyNd q ->
  np_asarray sensitivity = PyNd s ->
  check_sensitivity_shape (PyNd s) (PyNd q) = Ok tt ->
  Np.well_formed q ->
  fits (shape q) noise = true ->
  exists std output : ndarray,
    run (GaussianMechanism.apply self data) [noise]
    = ([(Normal 0 std, shape q)], Returned (PyNd output))
    /\ shape std = shape s
    /\ length (elems std) = length (elems s)
    /\ (forall i x, nth_error (elems s) i = Some x ->
          nth_error (elems std) i = Some (gaussian_std epsilon delta x))
    /\ shape output = shape q
    /\ length (elems output) = length (elems q)
    /\ (forall i x n,
          nth_error (elems q) i = Some x ->
          nth_error (elems noise) i = Some n ->
          nth_error (elems output) i = Some (x + n)).
Proof.
  intros Hinit Hdelta Hq Hs Hcheck Hwf Hfit.
  pose proof (gaussian_init_positive _ _ _ _ Hinit) as Hpos.
  apply gaussian_init_inv in Hinit as [-> [Heps Hd]]. cbn [fst snd] in *.
  cbn [GaussianMechanism._query] in Hq.
  set (c := sqrt (2 * ln (125 / 100 / delta))).
  assert (Hc : 0 < c).
  { apply sqrt_lt_R0. pose proof (log_ratio_positive delta ltac:(lra)). lra. }
  assert (Hspos : all_entries_positive s).
  { apply (positive_asarray_numeric sensitivity); [exact Hpos|].
    rewrite Hs. reflexivity. }
  assert (Hbroad : broadcastable_to (shape s) (shape q) = true).
  { cbn in Hcheck. destruct (Np.is_0d s) eqn:H0.
    - unfold Np.is_0d in H0. destruct (shape s); [reflexivity | discriminate].
    - cbn in Hcheck. destruct (Np.shape_eqb (shape s) (shape q)) eqn:Hsh;
        [|discriminate].
      apply shape_eqb_true in Hsh. rewrite Hsh. apply broadcastable_refl. }
  exists (Np.div_scalar (Np.scale_by c s) epsilon), (noisy q noise).
  split; [|repeat split].
  - unfold GaussianMechanism.apply.
    cbn [GaussianMechanism._query GaussianMechanism._sensitivity
         GaussianMechanism._epsilon_delta fst snd].
    rewrite Hq, Hs, Hcheck. cbn [lift bind].
    rewrite std_factor_defined by lra. fold c.
    cbn [rbind as_numeric lift bind shape_of].
    unfold np_random_normal.
    rewrite np_random_accepts
      by (try apply div_scalar_positive; try apply scale_by_positive;
          solve [assumption | lra]).
    cbn [draw bind].
    rewrite run_draw by exact Hfit.
    unfold py_add. cbn [as_numeric rbind].
    rewrite np_add_noise by exact Hfit. reflexivity.
  - cbn. rewrite !length_map. reflexivity.
  - intros i x Hx. cbn. rewrite !nth_error_map, Hx. reflexivity.
  - cbn. apply zip_with_length.
    apply fits_spec in Hfit as [Hsh Hlen].
    unfold Np.well_formed in Hwf, Hlen. congruence.
  - intros i x n Hx Hn. cbn. apply nth_error_zip_with; assumption.
Qed.

Lemma gaussian_apply_noise_witness :
  exists std output : ndarray,
    run (GaussianMechanism.apply
           (GaussianMechanism.mk (PyFloat 1) (1 / 2, 1 / 100) IdentityFunction)
           (PyNd (mk_nd [1%nat] [0])))
        [mk_nd [1%nat] [3]]
    = ([(Normal 0 std, [1%nat])], Returned (PyNd output))
    /\ nth_error (elems std) 0 = Some (gaussian_std (1 / 2) (1 / 100) 1)
    /\ nth_error (elems output) 0 = Some (0 + 3).
Proof.
  destruct (gaussian_apply_noise (PyFloat 1) (1 / 2) (1 / 100) None
              (GaussianMechanism.mk (PyFloat 1) (1 / 2, 1 / 100) IdentityFunction)
              (PyNd (mk_nd [1%nat] [0])) (mk_nd [1%nat] [0]) (Np.of_scalar 1)
              (mk_nd [1%nat] [3]))
    as [std [output [Hrun [_ [_ [Hstd [_ [_ Hout]]]]]]]].
  - apply gaussian_init_ok; [lra | lra | positive_entries].
  - lra.
  - reflexivity.
  - reflexivity.
  - reflexivity.
  - reflexivity.
  - reflexivity.
  - exists std, output. split; [exact Hrun|]. split.
    + exact (Hstd 0%nat 1 eq_refl).
    + exact (Hout 0%nat 0 3 eq_refl eq_refl).
Defined.

(** ** ExponentialMechanism: apply *)







(** * Further properties of the mechanisms *)

(** ** RandomizedResponseBinary and RandomizedResponseCoins: apply *)

Lemma binary_run (self : RandomizedResponseBinary.t) (data : pyval)
  (d response : ndarray) :
  np_asarray data = PyNd d ->
  Np.well_formed d ->
  check_binary_data (PyNd d) = Ok tt ->
  fits (shape d) response = true ->
  run (RandomizedResponseBinary.apply self data) [response]
  = ([(Bernoulli
         (mk_nd (shape d)
            (List.map (fun x => if RandomizedResponseBinary.is_zero x
                                then 1 - RandomizedResponseBinary._f0 self
                                else RandomizedResponseBinary._f1 self)
               (elems d))),
       shape d)],
     Returned (PyNd response)).
Proof.
  intros Hd Hwf Hbin Hfit.
  unfold RandomizedResponseBinary.apply. rewrite Hd, Hbin.
  cbn [lift bind as_numeric].
  rewrite probabilities_filled by exact Hwf.
  cbn [shape draw bind]. rewrite run_draw by exact Hfit. reflexivity.
Qed.

(** For an instance that the constructor returns, whatever the shared
    check and the arithmetic of the constructor are, every success
    probability that [apply] hands to the Bernoulli sampler is a
    probability: it is positive and at most 1. *)
Theorem binary_apply_valid_probabilities
  (fa : FloatArith) (check : R * R -> result unit)
  (f0 f1 epsilon : R) (self : RandomizedResponseBinary.t) (data : pyval)
  (d response : ndarray) :
  RandomizedResponseBinary.init fa check f0 f1 epsilon = Ok self ->
  np_asarray data = PyNd d ->
  Np.well_formed d ->
  check_binary_data (PyNd d) = Ok tt ->
  fits (shape d) response = true ->
  exists probabilities : ndarray,
    run (RandomizedResponseBinary.apply self data) [response]
    = ([(Bernoulli probabilities, shape d)], Returned (PyNd response))
    /\ Forall (fun p => 0 < p <= 1) (elems probabilities).
Proof.
  intros Hinit Hd Hwf Hbin Hfit.
  apply init_needs_check in Hinit as [_ [H0 [H1 ->]]].
  eexists. split; [apply binary_run; eassumption|].
  cbn [elems RandomizedResponseBinary._f0 RandomizedResponseBinary._f1].
  apply Forall_forall. intros p Hin. apply in_map_iff in Hin as [x [<- _]].
  destruct (RandomizedResponseBinary.is_zero x); lra.
Qed.

Lemma binary_apply_valid_probabilities_witness :
  exists probabilities : ndarray,
    run (RandomizedResponseBinary.apply
           (RandomizedResponseBinary.mk (1 / 2) (1 / 2) 1)
           (PyNd (mk_nd [2%nat] [1; 0])))
        [mk_nd [2%nat] [1; 1]]
    = ([(Bernoulli probabilities, [2%nat])], Returned (PyNd (mk_nd [2%nat] [1; 1])))
    /\ Forall (fun p => 0 < p <= 1) (elems probabilities).
Proof.
  apply (binary_apply_valid_probabilities exact_float check_epsilon_delta
           (1 / 2) (1 / 2) 1
           (RandomizedResponseBinary.mk (1 / 2) (1 / 2) 1)
           (PyNd (mk_nd [2%nat] [1; 0])) (mk_nd [2%nat] [1; 0])
           (mk_nd [2%nat] [1; 1])).
  - apply init_inside; try lra; [apply check_pure_epsilon; lra|].
    cbn. replace (1 / 2 / (1 - 1 / 2)) with 1 by lra.
    rewrite Rmax_left by lra. rewrite ln_1. repeat split; lra.
  - reflexivity.
  - reflexivity.
  - cbn. unfold is_binary. real_cases. reflexivity.
  - reflexivity.
Defined.

Lemma coins_run (self : RandomizedResponseCoins.t) (data : pyval)
  (d first second : ndarray) :
  np_asarray data = PyNd d ->
  check_binary_data (PyNd d) = Ok tt ->
  fits (shape d) first = true ->
  fits (shape d) second = true ->
  snd (run (RandomizedResponseCoins.apply self data) [first; second])
  = Returned (PyNd (coins_closed_form d first second)).
Proof.
  intros Hd Hbin Hf Hs.
  pose proof (proj1 (fits_spec _ _) Hf) as [Hfs Hfw].
  pose proof (proj1 (fits_spec _ _) Hs) as [Hss Hsw].
  unfold RandomizedResponseCoins.apply. rewrite Hd, Hbin.
  cbn [lift bind draw shape_of].
  rewrite run_draw by exact Hf. rewrite run_draw by exact Hs.
  cbn [as_numeric rbind].
  unfold Np.mul, Np.add.
  rewrite ufunc2_same_shape by exact Hfs. cbn [rbind].
  rewrite ufunc2_same_shape by (cbn; congruence). cbn [rbind].
  rewrite ufunc2_same_shape by (cbn; congruence). cbn [rbind].
  cbn. unfold coins_closed_form. rewrite <- coins_elements. reflexivity.
Qed.

Lemma is_binary_spec (x : R) : is_binary x = true <-> x = 0 \/ x = 1.
Proof.
  unfold is_binary.
  destruct (Req_dec_T x 0); [tauto|].
  destruct (Req_dec_T x 1); [tauto|].
  split; [discriminate | tauto].
Qed.

Lemma coin_response_binary (x f s : R) :
  is_binary x = true -> is_binary f = true -> is_binary s = true ->
  is_binary (coin_response x f s) = true.
Proof.
  rewrite !is_binary_spec. unfold coin_response.
  intros [->| ->] [->| ->] [->| ->]; lra.
Qed.

Lemma map3_binary (xs fs ss : list R) :
  forallb is_binary xs = true -> forallb is_binary fs = true ->
  forallb is_binary ss = true ->
  forallb is_binary (map3 coin_response xs fs ss) = true.
Proof.
  revert fs ss. induction xs as [|x xs IH]; intros fs ss Hx Hf Hs.
  - reflexivity.
  - destruct fs as [|f fs]; [reflexivity|].
    destruct ss as [|s ss]; [reflexivity|].
    cbn in *. apply andb_true_iff in Hx as [Hx Hxs].
    apply andb_true_iff in Hf as [Hf Hfs].
    apply andb_true_iff in Hs as [Hs Hss].
    rewrite coin_response_binary by assumption. cbn. apply IH; assumption.
Qed.

Lemma binary_check_entries (a : ndarray) :
  check_binary_data (PyNd a) = Ok tt <-> forallb is_binary (elems a) = true.
Proof.
  cbn. destruct (forallb is_binary (elems a)); split; congruence.
Qed.

(** Binary in, binary out: when the data are binary and the generator
    returns 0/1 draws, the array that [apply] returns is binary as well, so
    it passes the check that the binary mechanisms run on their input. *)
Theorem coins_apply_output_binary
  (self : RandomizedResponseCoins.t) (data : pyval) (d first second : ndarray) :
  np_asarray data = PyNd d ->
  check_binary_data (PyNd d) = Ok tt ->
  fits (shape d) first = true ->
  fits (shape d) second = true ->
  check_binary_data (PyNd first) = Ok tt ->
  check_binary_data (PyNd second) = Ok tt ->
  exists output : ndarray,
    snd (run (RandomizedResponseCoins.apply self data) [first; second])
    = Returned (PyNd output)
    /\ check_binary_data (np_asarray (PyNd output)) = Ok tt.
Proof.
  intros Hd Hbin Hf Hs Hfb Hsb.
  exists (coins_closed_form d first second).
  split; [apply coins_run; assumption|].
  cbn [np_asarray]. apply binary_check_entries. cbn [coins_closed_form elems].
  apply map3_binary; apply binary_check_entries; assumption.
Qed.

Lemma coins_apply_output_binary_witness :
  exists output : ndarray,
    snd (run (RandomizedResponseCoins.apply RandomizedResponseCoins.init_default
                (PyNd (mk_nd [2%nat] [1; 0])))
           [mk_nd [2%nat] [0; 1]; mk_nd [2%nat] [1; 1]])
    = Returned (PyNd output)
    /\ check_binary_data (np_asarray (PyNd output)) = Ok tt.
Proof.
  apply (coins_apply_output_binary RandomizedResponseCoins.init_default
           (PyNd (mk_nd [2%nat] [1; 0])) (mk_nd [2%nat] [1; 0])
           (mk_nd [2%nat] [0; 1]) (mk_nd [2%nat] [1; 1]));
    try reflexivity; cbn; unfold is_binary; real_cases; reflexivity.
Defined.

Lemma map3_nth (f : R -> R -> R -> R) (xs ys zs : list R) (i : nat) (x y z : R) :
  nth_error xs i = Some x -> nth_error ys i = Some y -> nth_error zs i = Some z ->
  nth_error (map3 f xs ys zs) i = Some (f x y z).
Proof.
  revert ys zs i. induction xs as [|x0 xs IH]; intros ys zs i Hx Hy Hz.
  - destruct i; discriminate.
  - destruct ys as [|y0 ys]; [destruct i; discriminate|].
    destruct zs as [|z0 zs]; [destruct i; discriminate|].
    destruct i as [|i]; cbn in *.
    + congruence.
    + apply IH; assumption.
Qed.

(** The protocol of the class documentation, element by element: where the
    first draw is 1 (the first coin shows tails) the answer is the true
    value, and where it is 0 (heads) the answer is the second draw,
    whatever the true value is. *)
Theorem coins_apply_protocol
  (self : RandomizedResponseCoins.t) (data : pyval) (d first second : ndarray) :
  np_asarray data = PyNd d ->
  check_binary_data (PyNd d) = Ok tt ->
  fits (shape d) first = true ->
  fits (shape d) second = true ->
  exists output : ndarray,
    snd (run (RandomizedResponseCoins.apply self data) [first; second])
    = Returned (PyNd output)
    /\ forall i x s,
         nth_error (elems d) i = Some x ->
         nth_error (elems second) i = Some s ->
         (nth_error (elems first) i = Some 1 -> nth_error (elems output) i = Some x)
         /\ (nth_error (elems first) i = Some 0 ->
             nth_error (elems output) i = Some s).
Proof.
  intros Hd Hbin Hf Hs.
  exists (coins_closed_form d first second).
  split; [apply coins_run; assumption|].
  intros i x s Hx Hsec. cbn [coins_closed_form elems].
  split; intros Hfirst;
    rewrite (map3_nth coin_response _ _ _ i _ _ _ Hx Hfirst Hsec);
    unfold coin_response; f_equal; lra.
Qed.

Lemma coins_apply_protocol_witness :
  exists output : ndarray,
    snd (run (RandomizedResponseCoins.apply RandomizedResponseCoins.init_default
                (PyNd (mk_nd [2%nat] [1; 0])))
           [mk_nd [2%nat] [0; 1]; mk_nd [2%nat] [1; 1]])
    = Returned (PyNd output)
    /\ nth_error (elems output) 1 = Some 0.
Proof.
  destruct (coins_apply_protocol RandomizedResponseCoins.init_default
              (PyNd (mk_nd [2%nat] [1; 0])) (mk_nd [2%nat] [1; 0])
              (mk_nd [2%nat] [0; 1]) (mk_nd [2%nat] [1; 1]))
    as [output [Hrun Hprotocol]].
  - reflexivity.
  - cbn. unfold is_binary. real_cases. reflexivity.
  - reflexivity.
  - reflexivity.
  - exists output. split; [exact Hrun|].
    apply (Hprotocol 1%nat 0 1); reflexivity.
Defined.

(** ** RandomizedResponseCoins: the distribution of an answer *)

Lemma coins_scalar_run (self : RandomizedResponseCoins.t) (x first second : R) :
  is_binary x = true ->
  run (RandomizedResponseCoins.apply self (PyFloat x))
      [Np.of_scalar first; Np.of_scalar second]
  = ([(Bernoulli (Np.of_scalar (1 - RandomizedResponseCoins._prob_head_first self)),
       []);
      (Bernoulli (Np.of_scalar (RandomizedResponseCoins._prob_head_second self)),
       [])],
     Returned (PyNd (mk_nd [] [coin_response x first second]))).
Proof.
  intros Hx. unfold RandomizedResponseCoins.apply.
  cbn [np_asarray check_binary_data Np.of_scalar elems forallb].
  rewrite Hx. reflexivity.
Qed.

Lemma coins_answer_pmf_sum (self : RandomizedResponseCoins.t) (x y : R) :
  is_binary x = true ->
  let tails := 1 - RandomizedResponseCoins._prob_head_first self in
  let h2 := RandomizedResponseCoins._prob_head_second self in
  coins_answer_pmf self x y
  = (1 - tails) * (1 - h2) * indicator (coin_response x 0 0) y
    + (1 - tails) * h2 * indicator (coin_response x 0 1) y
    + tails * (1 - h2) * indicator (coin_response x 1 0) y
    + tails * h2 * indicator (coin_response x 1 1) y.
Proof.
  intros Hx. cbv zeta. unfold coins_answer_pmf, coin_tapes.
  cbn [List.map fst snd]. rewrite !coins_scalar_run by exact Hx.
  cbn [fst snd tape_probability answer_probability returned_scalar
       Np.of_scalar elems Rsum List.map fold_right].
  unfold bernoulli_pmf.
  destruct (Req_dec_T 0 1); [lra|]. destruct (Req_dec_T 0 0); [|lra].
  destruct (Req_dec_T 1 1); [|lra]. ring.
Qed.

Ltac pmf_cases :=
  rewrite ?coins_answer_pmf_sum by (unfold is_binary; real_cases; reflexivity);
  unfold indicator, coin_response;
  cbn [RandomizedResponseCoins._prob_head_first
       RandomizedResponseCoins._prob_head_second
       RandomizedResponseCoins.init_default RandomizedResponseCoins.init];
  repeat (case_real; try lra); try ring; try lra.

(** With independent draws, [apply] answers 1 on a true 1 with probability
    t + (1 - t) * h2 and answers 0 on a true 0 with probability
    t + (1 - t) * (1 - h2), where t = 1 - prob_head_first is the parameter
    of the first draw and h2 = prob_head_second: the table of
    RandomizedResponseBinary with these two values as f1 and f0.  For the
    default coins both are 3/4, and the bound of RandomizedResponseBinary
    for f0 = f1 = 3/4 is the epsilon that the class reports. *)
Theorem coins_answer_distribution (self : RandomizedResponseCoins.t) :
  let t := 1 - RandomizedResponseCoins._prob_head_first self in
  let h2 := RandomizedResponseCoins._prob_head_second self in
  coins_answer_pmf self 1 1 = t + (1 - t) * h2
  /\ coins_answer_pmf self 1 0 = (1 - t) * (1 - h2)
  /\ coins_answer_pmf self 0 0 = t + (1 - t) * (1 - h2)
  /\ coins_answer_pmf self 0 1 = (1 - t) * h2
  /\ coins_answer_pmf RandomizedResponseCoins.init_default 1 1 = 3 / 4
  /\ coins_answer_pmf RandomizedResponseCoins.init_default 0 0 = 3 / 4
  /\ min_epsilon (3 / 4) (3 / 4)
     = fst (RandomizedResponseCoins.epsilon_delta
              RandomizedResponseCoins.init_default).
Proof.
  cbv zeta. repeat split; try solve [pmf_cases].
  cbn. unfold min_epsilon.
  replace (3 / 4 / (1 - 3 / 4)) with 3 by lra.
  rewrite Rmax_left by lra. reflexivity.
Qed.

(** The reported epsilon is tied to the default coins.  With a fair second
    coin and a first draw whose parameter 1 - prob_head_first lies above
    1/2, the answer 1 is more than exp(epsilon) times as likely on a true 1
    as on a true 0, for the epsilon that [epsilon_delta] reports. *)
Theorem coins_reported_budget_exceeded (prob_head_first : R) :
  1 / 2 < 1 - prob_head_first < 1 ->
  let self := RandomizedResponseCoins.init prob_head_first (1 / 2) in
  0 < coins_answer_pmf self 0 1
  /\ exp (fst (RandomizedResponseCoins.epsilon_delta self))
     * coins_answer_pmf self 0 1
     < coins_answer_pmf self 1 1.
Proof.
  intros Hh. cbv zeta.
  replace (coins_answer_pmf (RandomizedResponseCoins.init prob_head_first (1 / 2)) 0 1)
    with ((1 - (1 - prob_head_first)) * (1 / 2)) by (symmetry; pmf_cases).
  replace (coins_answer_pmf (RandomizedResponseCoins.init prob_head_first (1 / 2)) 1 1)
    with ((1 - prob_head_first) + (1 - (1 - prob_head_first)) * (1 / 2))
    by (symmetry; pmf_cases).
  cbn [RandomizedResponseCoins.epsilon_delta RandomizedResponseCoins.init
       RandomizedResponseCoins._epsilon_delta fst].
  rewrite exp_ln by lra. split; lra.
Qed.

Lemma coins_reported_budget_exceeded_witness :
  exp (fst (RandomizedResponseCoins.epsilon_delta
              (RandomizedResponseCoins.init (1 / 10) (1 / 2))))
  * coins_answer_pmf (RandomizedResponseCoins.init (1 / 10) (1 / 2)) 0 1
  < coins_answer_pmf (RandomizedResponseCoins.init (1 / 10) (1 / 2)) 1 1.
Proof.
  apply (coins_reported_budget_exceeded (1 / 10)). lra.
Defined.

(** ** The requests of an execution *)

Section Requests.

Context {A : Type} (P : request -> Prop).

Lemma all_requests_ret (a : A) : all_requests P (Ret a).
Proof. intros tape. constructor. Qed.

Lemma all_requests_raise (e : exn) : all_requests P (@Raise A e).
Proof. intros tape. constructor. Qed.

Lemma all_requests_draw (d : dist) (sz : list nat) (k : ndarray -> Rand A) :
  P (d, sz) -> (forall x, fits sz x = true -> all_requests P (k x)) ->
  all_requests P (Draw d sz k).
Proof.
  intros Hd Hk tape. cbn [run]. destruct tape as [|x tape].
  - repeat constructor. exact Hd.
  - destruct (fits sz x) eqn:Hfit.
    + specialize (Hk x Hfit tape). destruct (run (k x) tape). cbn in *.
      constructor; assumption.
    + repeat constructor. exact Hd.
Qed.

Lemma all_requests_lift {B : Type} (r : result B) (f : B -> Rand A) :
  (forall b, r = Ok b -> all_requests P (f b)) ->
  all_requests P (bind (lift r) f).
Proof.
  intros H. destruct r as [b|e]; cbn [lift bind].
  - apply H. reflexivity.
  - apply all_requests_raise.
Qed.

End Requests.

Lemma all_requests_np_random {A : Type} (P : request -> Prop)
  (family : R -> ndarray -> dist) (loc : R) (scale : ndarray)
  (size : list nat) (k : ndarray -> Rand A) :
  P (family loc scale, size) ->
  (forall x, fits size x = true -> all_requests P (k x)) ->
  all_requests P (bind (np_random family loc scale size) k).
Proof.
  intros Hd Hk. unfold np_random.
  destruct (existsb negative (elems scale)); [apply all_requests_raise|].
  destruct (broadcastable_to (shape scale) size); [|apply all_requests_raise].
  cbn [draw bind]. apply all_requests_draw; assumption.
Qed.

(** ** LaplaceMechanism: the instance over a sequence of calls *)

Lemma asarray_idempotent (v : pyval) : np_asarray (np_asarray v) = np_asarray v.
Proof. destruct v; reflexivity. Qed.

Lemma laplace_apply_state (self : LaplaceMechanism.t) (data : pyval) :
  fst (LaplaceMechanism.apply self data)
  = if is_scalar_or_ndarray (LaplaceMechanism._query self data)
    then LaplaceMechanism.set_sensitivity self
           (np_asarray (LaplaceMechanism._sensitivity self))
    else self.
Proof.
  unfold LaplaceMechanism.apply.
  destruct (is_scalar_or_ndarray (LaplaceMechanism._query self data)).
  - reflexivity.
  - destruct (LaplaceMechanism._query self data); reflexivity.
Qed.

Lemma laplace_after_converted (self : LaplaceMechanism.t) (calls : list pyval) :
  let converted :=
    LaplaceMechanism.set_sensitivity self
      (np_asarray (LaplaceMechanism._sensitivity self)) in
  laplace_after converted calls = converted.
Proof.
  cbv zeta. induction calls as [|data calls IH]; [reflexivity|].
  cbn [laplace_after]. rewrite laplace_apply_state.
  cbn [LaplaceMechanism._query LaplaceMechanism._sensitivity
       LaplaceMechanism.set_sensitivity].
  rewrite asarray_idempotent.
  destruct (is_scalar_or_ndarray (LaplaceMechanism._query self data)); exact IH.
Qed.

(** An instance changes at most once.  After any sequence of calls it is as
    it was when no call had a scalar or array query result, and otherwise
    it is the instance whose sensitivity has been replaced by
    [np.asarray] of it, whatever the number and order of the calls, and
    whether they returned or raised. *)
Theorem laplace_instance_changes_once
  (self : LaplaceMechanism.t) (calls : list pyval) :
  laplace_after self calls
  = if existsb (fun data => is_scalar_or_ndarray (LaplaceMechanism._query self data))
         calls
    then LaplaceMechanism.set_sensitivity self
           (np_asarray (LaplaceMechanism._sensitivity self))
    else self.
Proof.
  induction calls as [|data calls IH]; [reflexivity|].
  cbn [laplace_after existsb]. rewrite laplace_apply_state.
  destruct (is_scalar_or_ndarray (LaplaceMechanism._query self data)).
  - cbn [orb]. apply laplace_after_converted.
  - cbn [orb]. exact IH.
Qed.

Lemma laplace_converted_same_output (self : LaplaceMechanism.t) (data : pyval) :
  LaplaceMechanism._epsilon self <> 0 ->
  (exists x, LaplaceMechanism._sensitivity self = PyFloat x)
  \/ (exists a, LaplaceMechanism._sensitivity self = PyNd a) ->
  snd (LaplaceMechanism.apply
         (LaplaceMechanism.set_sensitivity self
            (np_asarray (LaplaceMechanism._sensitivity self))) data)
  = snd (LaplaceMechanism.apply self data).
Proof.
  intros He Hs. destruct self as [sens epsilon query].
  cbn [LaplaceMechanism._sensitivity LaplaceMechanism._epsilon] in *.
  unfold LaplaceMechanism.apply.
  cbn [LaplaceMechanism._query LaplaceMechanism._sensitivity
       LaplaceMechanism._epsilon LaplaceMechanism.set_sensitivity].
  rewrite asarray_idempotent.
  destruct (is_scalar_or_ndarray (query data)); [reflexivity|].
  destruct (query data) as [| | | items | |]; try reflexivity.
  cbn [snd]. destruct Hs as [[x ->] | [a ->]]; [|reflexivity].
  cbn [np_asarray check_sensitivity_shape Np.is_0d Np.of_scalar shape
       lift bind py_div].
  destruct (Req_dec_T epsilon 0); [contradiction | reflexivity].
Qed.

(** History independence for a float or array sensitivity: on an instance
    that the constructor returns with such a sensitivity, a call computes
    the same thing after any sequence of earlier calls as on the fresh
    instance - the same requests and the same result for the same answers
    of the generator. *)
Theorem laplace_history_independent
  (sensitivity : pyval) (epsilon : R) (query : option Query)
  (self : LaplaceMechanism.t) (calls : list pyval) (data : pyval)
  (tape : list ndarray) :
  LaplaceMechanism.init sensitivity epsilon query = Ok self ->
  (exists x, sensitivity = PyFloat x) \/ (exists a, sensitivity = PyNd a) ->
  run (snd (LaplaceMechanism.apply (laplace_after self calls) data)) tape
  = run (snd (LaplaceMechanism.apply self data)) tape.
Proof.
  intros Hinit Hs. apply init_inv in Hinit as [-> [He _]].
  assert (Hstate :
    laplace_after (LaplaceMechanism.mk sensitivity epsilon (default_query query)) calls
    = LaplaceMechanism.mk sensitivity epsilon (default_query query)
    \/ laplace_after (LaplaceMechanism.mk sensitivity epsilon (default_query query)) calls
       = LaplaceMechanism.set_sensitivity
           (LaplaceMechanism.mk sensitivity epsilon (default_query query))
           (np_asarray sensitivity)).
  { induction calls as [|d calls IH]; [left; reflexivity|].
    cbn [laplace_after]. rewrite laplace_apply_state.
    destruct (is_scalar_or_ndarray _); [|exact IH].
    right. apply laplace_after_converted. }
  destruct Hstate as [-> | ->]; [reflexivity|].
  rewrite (laplace_converted_same_output
             (LaplaceMechanism.mk sensitivity epsilon (default_query query)));
    [reflexivity | cbn; lra | exact Hs].
Qed.

Lemma laplace_history_independent_witness :
  run (snd (LaplaceMechanism.apply
              (laplace_after (LaplaceMechanism.mk (PyFloat 1) 2 IdentityFunction)
                 [PyFloat 0; PyList [1]])
              (PyDict [("a"%string, mk_nd [1%nat] [7])])))
      [mk_nd [1%nat] [5]]
  = run (snd (LaplaceMechanism.apply
                (LaplaceMechanism.mk (PyFloat 1) 2 IdentityFunction)
                (PyDict [("a"%string, mk_nd [1%nat] [7])])))
      [mk_nd [1%nat] [5]].
Proof.
  apply (laplace_history_independent (PyFloat 1) 2 None).
  - apply laplace_init_ok; [lra | positive_entries].
  - left. exists 1. reflexivity.
Defined.

(** ** LaplaceMechanism: the shape of a mapping output *)

Lemma noisy_items_returned {A : Type} (scale_of : string -> result ndarray)
  (items : list (string * ndarray)) (g : list (string * ndarray) -> A)
  (tape : list ndarray) (r : A) :
  snd (run (bind (LaplaceMechanism.noisy_items scale_of items)
              (fun outs => Ret (g outs))) tape) = Returned r ->
  exists outs,
    r = g outs /\
    Forall2 (fun (kv out : string * ndarray) =>
               fst out = fst kv /\ shape (snd out) = shape (snd kv))
      items outs.
Proof.
  revert g tape. induction items as [|[k v] items IH]; intros g tape H.
  - cbn in H. inversion H. exists []. split; [reflexivity | constructor].
  - cbn [LaplaceMechanism.noisy_items] in H.
    destruct (scale_of k) as [b|e]; cbn [lift bind] in H; [|discriminate].
    unfold np_random_laplace, np_random in H.
    destruct (existsb negative (elems b)); [discriminate|].
    destruct (broadcastable_to (shape b) (shape v)); [|discriminate].
    cbn [draw bind run] in H. destruct tape as [|x tape]; [discriminate|].
    destruct (fits (shape v) x) eqn:Hfit; [|discriminate].
    rewrite np_add_noise in H by exact Hfit. cbn [lift bind] in H.
    destruct (run _ tape) as [rq o] eqn:Hrun. cbn [snd] in H. subst o.
    pose proof (f_equal snd Hrun) as Hsnd. cbn [snd] in Hsnd.
    rewrite run_bind_assoc in Hsnd. cbn [bind] in Hsnd.
    destruct (IH (fun outs => g ((k, noisy v x) :: outs)) tape Hsnd)
      as [outs [Hr Hall]].
    exists ((k, noisy v x) :: outs). split; [exact Hr|].
    constructor; [split; reflexivity | exact Hall].
Qed.

(** Whenever [apply] returns on a mapping query result, it returns a
    mapping with the same keys in the same order, and the array under each
    key has the shape of the array the query gave for that key. *)
Theorem laplace_mapping_output_shape
  (self : LaplaceMechanism.t) (data : pyval) (items : list (string * ndarray))
  (tape : list ndarray) (output : pyval) :
  LaplaceMechanism._query self data = PyDict items ->
  snd (run (snd (LaplaceMechanism.apply self data)) tape) = Returned output ->
  exists outs,
    output = PyDict outs
    /\ dict_keys outs = dict_keys items
    /\ Forall2 (fun (kv out : string * ndarray) =>
                  fst out = fst kv /\ shape (snd out) = shape (snd kv))
         items outs.
Proof.
  intros Hq Hrun. unfold LaplaceMechanism.apply in Hrun. rewrite Hq in Hrun.
  cbn [is_scalar_or_ndarray snd] in Hrun.
  destruct (check_sensitivity_shape (LaplaceMechanism._sensitivity self)
              (PyDict items)) as [[]|e]; cbn [lift bind] in Hrun;
    [|discriminate].
  assert (Hitems : exists scale_of,
            snd (run (bind (LaplaceMechanism.noisy_items scale_of items)
                        (fun outs => Ret (PyDict outs))) tape)
            = Returned output).
  { destruct (LaplaceMechanism._sensitivity self) as [| x | a | s | |];
      try (destruct (py_div _ (LaplaceMechanism._epsilon self)) as [b|e];
           cbn [lift bind] in Hrun; [eauto | discriminate]).
    eauto. }
  destruct Hitems as [scale_of Hitems].
  apply noisy_items_returned in Hitems as [outs [-> Hall]].
  exists outs. split; [reflexivity|]. split; [|exact Hall].
  unfold dict_keys. clear -Hall. induction Hall as [|kv out items outs [Hk _] _ IH].
  - reflexivity.
  - cbn. rewrite Hk, IH. reflexivity.
Qed.

Lemma laplace_mapping_output_shape_witness :
  exists outs,
    PyDict [("a"%string, noisy (mk_nd [1%nat] [7]) (mk_nd [1%nat] [5]))] = PyDict outs
    /\ dict_keys outs = ["a"%string].
Proof.
  destruct (laplace_mapping_output_shape
              (LaplaceMechanism.mk (PyFloat 1) 2 IdentityFunction)
              (PyDict [("a"%string, mk_nd [1%nat] [7])])
              [("a"%string, mk_nd [1%nat] [7])]
              [mk_nd [1%nat] [5]]
              (PyDict [("a"%string, noisy (mk_nd [1%nat] [7]) (mk_nd [1%nat] [5]))]))
    as [outs [Hout [Hkeys _]]].
  - reflexivity.
  - sampler_accepts.
  - exists outs. split; assumption.
Defined.

(** ** GaussianMechanism: the requests of a constructed instance *)

(** Every request that [apply] makes on an instance that the constructor
    returns is a Normal request of location 0 whose standard deviations are
    all positive, whatever the data are. *)
Theorem gaussian_requests_always_valid
  (sensitivity : pyval) (epsilon_delta : R * R) (query : option Query)
  (self : GaussianMechanism.t) (data : pyval) (tape : list ndarray) :
  GaussianMechanism.init sensitivity epsilon_delta query = Ok self ->
  Forall normal_request_ok (fst (run (GaussianMechanism.apply self data) tape)).
Proof.
  intros Hinit. pose proof (gaussian_init_positive _ _ _ _ Hinit) as Hpos.
  apply gaussian_init_inv in Hinit as [-> [He Hd]].
  revert tape. change (all_requests normal_request_ok
    (GaussianMechanism.apply
       (GaussianMechanism.mk sensitivity epsilon_delta (default_query query)) data)).
  unfold GaussianMechanism.apply.
  cbn [GaussianMechanism._query GaussianMechanism._sensitivity
       GaussianMechanism._epsilon_delta].
  apply all_requests_lift. intros [] _.
  apply all_requests_lift. intros std Hstd.
  unfold np_random_normal. apply all_requests_np_random.
  - split; [reflexivity|].
    destruct (GaussianMechanism.std_factor (snd epsilon_delta)) as [c|] eqn:Hc;
      cbn [rbind] in Hstd; [|discriminate].
    destruct (as_numeric (np_asarray sensitivity)) as [s|] eqn:Hs;
      cbn [rbind] in Hstd; [|discriminate].
    inversion Hstd. apply div_scalar_positive; [lra|].
    pose proof (std_factor_positive _ _ Hd Hc) as Hcpos.
    pose proof (positive_asarray_numeric _ _ Hpos Hs) as Hspos.
    unfold all_entries_positive in *. cbn. apply Forall_forall.
    intros y Hin. apply in_map_iff in Hin as [x [<- Hx]].
    rewrite Forall_forall in Hspos. apply Rmult_lt_0_compat; auto.
  - intros x _. apply all_requests_lift. intros out _. apply all_requests_ret.
Qed.

Lemma gaussian_requests_always_valid_witness :
  Forall normal_request_ok
    (fst (run (GaussianMechanism.apply
                 (GaussianMechanism.mk (PyFloat 1) (1 / 2, 1 / 100) IdentityFunction)
                 (PyNd (mk_nd [1%nat] [0])))
            [mk_nd [1%nat] [3]])).
Proof.
  apply (gaussian_requests_always_valid (PyFloat 1) (1 / 2, 1 / 100) None).
  apply gaussian_init_ok; [lra | lra | positive_entries].
Defined.

(** * DeepLearningModel *)

Section KerasProperties.

Context {keras : Type}.
Variable keras_evaluate : keras -> ndarray -> ndarray -> metrics.

Lemma tuple_eqb_spec (ints : list nat) (dims : DeepLearningModel.keras_shape) :
  DeepLearningModel.tuple_eqb ints dims = true <-> List.map Some ints = dims.
Proof.
  revert dims. induction ints as [|n ints IH]; intros [|[m|] dims]; cbn;
    try (split; congruence).
  rewrite andb_true_iff, Nat.eqb_eq, IH. split.
  - intros [-> ->]. reflexivity.
  - intros H. inversion H. auto.
Qed.

(** The data check looks at the shape without its first entry only: the
    data are accepted exactly when the remaining entries are, one by one,
    the integers of the input shape recorded at construction, and are
    refused with an AssertionError otherwise.  The number of rows is free,
    and a model whose input shape has an unspecified ([None]) entry after
    the first accepts no data at all. *)
Theorem model_check_data_accepts
  (self : DeepLearningModel.t keras) (data : ndarray) :
  (DeepLearningModel._check_data self data = inr tt
   <-> List.map Some (tl (shape data)) = DeepLearningModel._data_shape self)
  /\ (DeepLearningModel._check_data self data = inr tt
      \/ DeepLearningModel._check_data self data = inl AssertionError)
  /\ (forall other : ndarray,
        tl (shape other) = tl (shape data) ->
        DeepLearningModel._check_data self other
        = DeepLearningModel._check_data self data)
  /\ (In None (DeepLearningModel._data_shape self) ->
      DeepLearningModel._check_data self data = inl AssertionError).
Proof.
  unfold DeepLearningModel._check_data.
  split; [|split; [|split]].
  - rewrite <- tuple_eqb_spec.
    destruct (DeepLearningModel.tuple_eqb _ _); split; congruence.
  - destruct (DeepLearningModel.tuple_eqb _ _); auto.
  - intros other ->. reflexivity.
  - intros Hnone.
    destruct (DeepLearningModel.tuple_eqb _ _) eqn:E; [|reflexivity].
    apply tuple_eqb_spec in E. rewrite <- E in Hnone.
    apply in_map_iff in Hnone as [n [Hn _]]. discriminate.
Qed.

(** [performance] returns the first metric exactly when [evaluate] returns
    a list with a first element; when [evaluate] returns a bare loss (a
    model compiled without metrics) or an empty list, [performance] raises
    although [evaluate] succeeds; when [evaluate] raises, [performance]
    raises the same exception. *)
Theorem model_performance_first_metric
  (self : DeepLearningModel.t keras) (data labels : ndarray) :
  (forall x,
      DeepLearningModel.performance keras_evaluate self data labels = inr x
      <-> exists rest,
            DeepLearningModel.evaluate keras_evaluate self data labels
            = inr (Metrics (x :: rest)))
  /\ (forall e,
        DeepLearningModel.evaluate keras_evaluate self data labels = inl e ->
        DeepLearningModel.performance keras_evaluate self data labels = inl e)
  /\ (forall x,
        DeepLearningModel.evaluate keras_evaluate self data labels = inr (Loss x) ->
        DeepLearningModel.performance keras_evaluate self data labels
        = inl SubscriptError)
  /\ (DeepLearningModel.evaluate keras_evaluate self data labels = inr (Metrics []) ->
      DeepLearningModel.performance keras_evaluate self data labels
      = inl SubscriptError).
Proof.
  unfold DeepLearningModel.evaluate, DeepLearningModel.performance.
  destruct (DeepLearningModel._check_data self data) as [e|[]].
  - repeat split; try congruence; try discriminate.
    intros [rest H]. discriminate.
  - destruct (DeepLearningModel._check_labels self labels) as [e|[]].
    + repeat split; try congruence; try discriminate.
      intros [rest H]. discriminate.
    + destruct (keras_evaluate (DeepLearningModel._model self) data labels)
        as [loss|[|m ms]]; cbn [DeepLearningModel.first_item].
      * repeat split; try congruence; try discriminate.
        intros [rest H]. discriminate.
      * repeat split; try congruence; try discriminate.
        intros [rest H]. discriminate.
      * repeat split; try congruence; try discriminate.
        -- intros H. inversion H. eauto.
        -- intros [rest H]. inversion H. reflexivity.
Qed.

End KerasProperties.

(** ** The class indices that [predict] returns *)

Lemma argmax_from_spec (row pre : list R) (best_i : nat) (best : R) :
  (best_i < length pre)%nat ->
  nth best_i pre 0 = best ->
  (forall j, (j < length pre)%nat -> nth j pre 0 <= best) ->
  (forall j, (j < best_i)%nat -> nth j pre 0 < best) ->
  let r := DeepLearningModel.argmax_from best_i best (length pre) row in
  (r < length (pre ++ row))%nat
  /\ (forall j, (j < length (pre ++ row))%nat ->
        nth j (pre ++ row) 0 <= nth r (pre ++ row) 0)
  /\ (forall j, (j < r)%nat -> nth j (pre ++ row) 0 < nth r (pre ++ row) 0).
Proof.
  revert pre best_i best.
  induction row as [|x row IH]; intros pre best_i best Hi Hb Hmax Hfirst.
  - cbn. rewrite app_nil_r. subst best. auto.
  - cbn [DeepLearningModel.argmax_from].
    replace (pre ++ x :: row) with ((pre ++ [x]) ++ row)
      by (rewrite <- app_assoc; reflexivity).
    replace (S (length pre)) with (length (pre ++ [x]))
      by (rewrite length_app; cbn; lia).
    assert (Hold : forall j, (j < length pre)%nat ->
              nth j (pre ++ [x]) 0 = nth j pre 0)
      by (intros j Hj; apply app_nth1; exact Hj).
    assert (Hnew : nth (length pre) (pre ++ [x]) 0 = x)
      by (rewrite app_nth2 by lia; rewrite Nat.sub_diag; reflexivity).
    assert (Hlen : length (pre ++ [x]) = S (length pre))
      by (rewrite length_app; cbn; lia).
    destruct (Rlt_dec best x) as [Hlt|Hge].
    + apply (IH (pre ++ [x]) (length pre) x).
      * lia.
      * exact Hnew.
      * intros j Hj. rewrite Hlen in Hj.
        destruct (Nat.eq_dec j (length pre)) as [->|Hne].
        -- rewrite Hnew. lra.
        -- rewrite Hold by lia. specialize (Hmax j ltac:(lia)). lra.
      * intros j Hj. rewrite Hold by lia. specialize (Hmax j Hj). lra.
    + apply (IH (pre ++ [x]) best_i best).
      * lia.
      * rewrite Hold by lia. exact Hb.
      * intros j Hj. rewrite Hlen in Hj.
        destruct (Nat.eq_dec j (length pre)) as [->|Hne].
        -- rewrite Hnew. lra.
        -- rewrite Hold by lia. apply Hmax. lia.
      * intros j Hj. rewrite Hold by lia. apply Hfirst. exact Hj.
Qed.

Lemma argmax_spec (row : list R) :
  row <> [] ->
  (DeepLearningModel.argmax row < length row)%nat
  /\ (forall j, (j < length row)%nat ->
        nth j row 0 <= nth (DeepLearningModel.argmax row) row 0)
  /\ (forall j, (j < DeepLearningModel.argmax row)%nat ->
        nth j row 0 < nth (DeepLearningModel.argmax row) row 0).
Proof.
  destruct row as [|x row]; [contradiction|]. intros _.
  apply (argmax_from_spec row [x] 0 x).
  - cbn. lia.
  - reflexivity.
  - intros j Hj. cbn in Hj. replace j with 0%nat by lia. cbn. lra.
  - intros j Hj. lia.
Qed.

Lemma chunks_spec (c n : nat) :
  (0 < c)%nat ->
  forall (l : list R) (fuel : nat),
    length l = (n * c)%nat -> (n <= fuel)%nat ->
    length (DeepLearningModel.chunks fuel c l) = n
    /\ forall k, (k < n)%nat ->
         nth_error (DeepLearningModel.chunks fuel c l) k
         = Some (firstn c (skipn (k * c) l)).
Proof.
  intros Hc. induction n as [|n IH]; intros l fuel Hlen Hfuel.
  - destruct l; [|discriminate]. split; [|intros k Hk; lia].
    destruct fuel; reflexivity.
  - destruct fuel as [|fuel]; [lia|].
    destruct l as [|x l]; [cbn in Hlen; lia|].
    cbn [DeepLearningModel.chunks].
    assert (Hrest : length (skipn c (x :: l)) = (n * c)%nat)
      by (rewrite length_skipn, Hlen; cbn; lia).
    destruct (IH (skipn c (x :: l)) fuel Hrest ltac:(lia)) as [IHlen IHnth].
    split; [cbn; rewrite IHlen; reflexivity|].
    intros [|k] Hk.
    + reflexivity.
    + cbn [nth_error]. rewrite IHnth by lia. rewrite skipn_skipn.
      replace (k * c + c)%nat with (S k * c)%nat by (cbn; lia). reflexivity.
Qed.

Lemma size_of_last (sh : list nat) :
  Np.size_of sh
  = (Np.size_of (removelast sh) * DeepLearningModel.last_axis sh)%nat.
Proof.
  destruct sh as [|d sh]; [reflexivity|].
  unfold DeepLearningModel.last_axis.
  destruct (@exists_last _ (d :: sh) ltac:(discriminate)) as [front [c Heq]].
  rewrite Heq, removelast_last, last_last. clear Heq.
  induction front as [|e front IH]; cbn.
  - lia.
  - unfold Np.size_of in IH. rewrite IH. lia.
Qed.

Section KerasPredict.

Context {keras : Type}.
Variable keras_predict : keras -> ndarray -> option nat -> ndarray.

(** On accepted data, when the scores that the wrapped model predicts form
    a well-formed array whose last axis is not empty, [predict] returns an
    array with the shape of the scores without their last axis, holding for
    every row of scores the index of a largest score of that row, the first
    one when several are largest.  When the last axis is empty the call
    raises numpy's ValueError. *)
Theorem model_predict_classes
  (self : DeepLearningModel.t keras) (data : ndarray) :
  let scores :=
    keras_predict (DeepLearningModel._model self) data
      (DeepLearningModel._batch_size self) in
  let c := DeepLearningModel.last_axis (shape scores) in
  DeepLearningModel._check_data self data = inr tt ->
  Np.well_formed scores ->
  (c = 0%nat ->
   DeepLearningModel.predict keras_predict self data = inl (NumpyError ValueError))
  /\ (c <> 0%nat ->
      exists classes : ndarray,
        DeepLearningModel.predict keras_predict self data = inr classes
        /\ shape classes = removelast (shape scores)
        /\ Np.well_formed classes
        /\ forall k, (k < Np.size_of (removelast (shape scores)))%nat ->
             exists i, (i < c)%nat
               /\ nth_error (elems classes) k = Some (INR i)
               /\ (forall j, (j < c)%nat ->
                     nth (k * c + j) (elems scores) 0
                     <= nth (k * c + i) (elems scores) 0)
               /\ (forall j, (j < i)%nat ->
                     nth (k * c + j) (elems scores) 0
                     < nth (k * c + i) (elems scores) 0)).
Proof.
  intros scores c Hcheck Hwf.
  unfold DeepLearningModel.predict. rewrite Hcheck.
  unfold DeepLearningModel.argmax_last. fold scores. fold c.
  split.
  - intros ->. reflexivity.
  - intros Hc. destruct (Nat.eqb_spec c 0) as [E|_]; [contradiction|].
    set (n := Np.size_of (removelast (shape scores))).
    assert (Hlen : length (elems scores) = (n * c)%nat).
    { unfold Np.well_formed in Hwf. rewrite Hwf. apply size_of_last. }
    assert (Hfuel : (n <= length (elems scores))%nat) by nia.
    destruct (chunks_spec c n ltac:(lia) (elems scores) (length (elems scores))
                Hlen Hfuel) as [Hrows Hrow].
    eexists. split; [reflexivity|]. cbn [shape elems].
    split; [reflexivity|].
    split; [unfold Np.well_formed; cbn [shape elems];
            rewrite length_map; exact Hrows|].
    intros k Hk.
    set (row := firstn c (skipn (k * c) (elems scores))).
    assert (Hrowlen : length row = c).
    { unfold row. rewrite length_firstn, length_skipn. nia. }
    assert (Hne : row <> []) by (intros E; rewrite E in Hrowlen; cbn in *; lia).
    destruct (argmax_spec row Hne) as [Hi [Hmax Hfirst]].
    assert (Hnth : forall j, (j < c)%nat ->
              nth j row 0 = nth (k * c + j) (elems scores) 0).
    { intros j Hj. unfold row. rewrite nth_firstn.
      destruct (Nat.ltb_spec j c); [|lia]. apply nth_skipn. }
    exists (DeepLearningModel.argmax row).
    split; [lia|]. split; [rewrite nth_error_map, (Hrow k Hk); reflexivity|].
    split.
    + intros j Hj. rewrite <- !Hnth by lia. apply Hmax. lia.
    + intros j Hj. rewrite <- !Hnth by lia. apply Hfirst. exact Hj.
Qed.

End KerasPredict.

(* The wrapped model of the examples below is a counter of the epochs it
   was fitted for. *)
Lemma model_check_data_accepts_witness :
  DeepLearningModel._check_data
    (DeepLearningModel.init (fun _ : nat => [None; None])
       (fun _ => [None; Some 2%nat]) 0%nat None 1)
    (mk_nd [3%nat; 4%nat] (repeat 0 12))
  = inl AssertionError.
Proof.
  apply model_check_data_accepts. left. reflexivity.
Defined.

Lemma model_performance_first_metric_witness :
  DeepLearningModel.performance (fun (_ : nat) _ _ => Loss 1)
    (DeepLearningModel.init (fun _ : nat => [None; Some 4%nat])
       (fun _ => [None; Some 2%nat]) 0%nat None 1)
    (mk_nd [3%nat; 4%nat] (repeat 0 12)) (mk_nd [3%nat; 2%nat] (repeat 0 6))
  = inl SubscriptError.
Proof.
  apply (proj1 (proj2 (proj2 (model_performance_first_metric
                                (fun (_ : nat) _ _ => Loss 1) _ _ _))) 1).
  reflexivity.
Defined.

Lemma model_predict_classes_witness :
  exists classes : ndarray,
    DeepLearningModel.predict
      (fun (_ : nat) _ _ => mk_nd [2%nat; 2%nat] [1; 3; 5; 5])
      (DeepLearningModel.init (fun _ : nat => [None; Some 4%nat])
         (fun _ => [None; Some 2%nat]) 0%nat None 1)
      (mk_nd [2%nat; 4%nat] (repeat 0 8))
    = inr classes
    /\ shape classes = [2%nat].
Proof.
  destruct (model_predict_classes
              (fun (_ : nat) _ _ => mk_nd [2%nat; 2%nat] [1; 3; 5; 5])
              (DeepLearningModel.init (fun _ : nat => [None; Some 4%nat])
                 (fun _ => [None; Some 2%nat]) 0%nat None 1)
              (mk_nd [2%nat; 4%nat] (repeat 0 8)) eq_refl eq_refl)
    as [_ Hclasses].
  destruct Hclasses as [classes [Hpredict [Hshape _]]].
  - cbn. lia.
  - exists classes. split; [exact Hpredict | exact Hshape].
Defined.
